(** * mailingset/service.py: the SMTP delivery pipeline of Mailing Set

    A shallow embedding of [SetSMTPFactory]'s delivery objects
    ([SetMessageDelivery] and [SetMessage]) together with the parts of the
    Python runtime and of the libraries they call (ConfigParser,
    email.message.Message, netaddr, Twisted's Deferred) that decide the
    behaviour stated in the specification.

    Python [str] and [bytes] values are both held as Rocq strings: a [bytes]
    value is its byte sequence, a [str] value is held by its UTF-8 encoding.
    With this reading [bytes.decode()] is the identity on byte sequences that
    are valid UTF-8 and raises otherwise, and [str.encode()] is the
    identity. *)

From Stdlib Require Import ZArith NArith Ascii String List Permutation Lia Bool.
From stdpp Require Import gmap strings list fin_maps.

Local Open Scope string_scope.

Abbreviation str := string (only parsing).
Abbreviation bytes := string (only parsing).

(** ** Python runtime *)

Module Py.

(** A value that the source inspects with [isinstance(_, bytes)] or formats
    with [%s]. *)
Inductive PyVal :=
| PyStr (s : str)
| PyBytes (b : bytes).

Definition byte_val (c : ascii) : N := N_of_ascii c.

Definition ascii_lower (c : ascii) : ascii :=
  let n := byte_val c in
  if ((65 <=? n) && (n <=? 90))%N then ascii_of_N (n + 32) else c.

(** [s.lower()] on header names. Only the ASCII letters are folded: the
    names it is compared with in the source (list-id, list-post,
    precedence, subject) hold no letter that a non-ASCII character lowers
    to. *)
Fixpoint lower (s : string) : string :=
  match s with
  | EmptyString => EmptyString
  | String c s' => String (ascii_lower c) (lower s')
  end.

(** [s.split(sep)] for a one-character separator: never the empty list. *)
Fixpoint split (sep : ascii) (s : string) : list string :=
  match s with
  | EmptyString => [EmptyString]
  | String c s' =>
      if Ascii.eqb c sep then EmptyString :: split sep s'
      else match split sep s' with
           | [] => [String c EmptyString]
           | w :: ws => String c w :: ws
           end
  end.

(** The strict UTF-8 decoder's acceptance test: [pending] continuation bytes
    are still due, the next of them within [lo..hi]. *)
Fixpoint utf8_scan (pending : nat) (lo hi : N) (bs : string) : bool :=
  match bs with
  | EmptyString => Nat.eqb pending 0
  | String c bs' =>
      let b := byte_val c in
      match pending with
      | O =>
          (if b <=? 127 then utf8_scan 0 128 191 bs'
           else if (194 <=? b) && (b <=? 223) then utf8_scan 1 128 191 bs'
           else if b =? 224 then utf8_scan 2 160 191 bs'
           else if b =? 237 then utf8_scan 2 128 159 bs'
           else if (225 <=? b) && (b <=? 239) then utf8_scan 2 128 191 bs'
           else if b =? 240 then utf8_scan 3 144 191 bs'
           else if (241 <=? b) && (b <=? 243) then utf8_scan 3 128 191 bs'
           else if b =? 244 then utf8_scan 3 128 143 bs'
           else false)%N
      | S p =>
          if ((lo <=? b) && (b <=? hi))%N then utf8_scan p 128 191 bs'
          else false
      end
  end.

(** [b.decode()]: [None] stands for UnicodeDecodeError. *)
Definition decode (b : bytes) : option str :=
  if utf8_scan 0 128 191 b then Some b else None.

(** [s.encode()]. *)
Definition encode (s : str) : bytes := s.

Definition squote : ascii := ascii_of_N 39.
Definition dquote : ascii := ascii_of_N 34.
Definition backslash : ascii := ascii_of_N 92.

Fixpoint mem_char (c : ascii) (s : string) : bool :=
  match s with
  | EmptyString => false
  | String d s' => Ascii.eqb c d || mem_char c s'
  end.

Definition hex_digit (n : N) : ascii :=
  match String.get (N.to_nat n) "0123456789abcdef" with
  | Some c => c
  | None => "0"%char
  end.

Definition repr_byte (quote : ascii) (c : ascii) : string :=
  let n := byte_val c in
  if Ascii.eqb c quote || Ascii.eqb c backslash
  then String backslash (String c EmptyString)
  else if (n =? 9)%N then String backslash "t"
  else if (n =? 10)%N then String backslash "n"
  else if (n =? 13)%N then String backslash "r"
  else if ((n <? 32) || (127 <=? n))%N
  then String backslash
         (String "x" (String (hex_digit (n / 16)) (String (hex_digit (n mod 16)) EmptyString)))
  else String c EmptyString.

Fixpoint repr_body (quote : ascii) (b : bytes) : string :=
  match b with
  | EmptyString => EmptyString
  | String c b' => repr_byte quote c ++ repr_body quote b'
  end.

(** [repr(b)] of a bytes object: b'...', quoted with double quotes when the
    bytes hold a single quote and no double quote. *)
Definition bytes_repr (b : bytes) : str :=
  let quote := if mem_char squote b && negb (mem_char dquote b) then dquote else squote in
  String "b" (String quote (repr_body quote b ++ String quote EmptyString)).

(** ['%s' % (v,)]: a str as it is, a bytes object by its repr. *)
Definition format_s (v : PyVal) : str :=
  match v with
  | PyStr s => s
  | PyBytes b => bytes_repr b
  end.

Definition is_digit (c : ascii) : bool :=
  let n := byte_val c in ((48 <=? n) && (n <=? 57))%N.

Definition digit_val (c : ascii) : Z := Z.of_N (byte_val c) - 48.

Fixpoint decimal_acc (acc : Z) (s : string) : option Z :=
  match s with
  | EmptyString => Some acc
  | String c s' =>
      if is_digit c then decimal_acc (10 * acc + digit_val c) s' else None
  end.

(** A non-empty run of decimal digits. *)
Definition decimal (s : string) : option Z :=
  match s with
  | EmptyString => None
  | _ => decimal_acc 0 s
  end.

(** White space within ASCII: the space, tab to carriage return, and the
    four separators 0x1c to 0x1f. *)
Definition is_space (c : ascii) : bool :=
  let n := byte_val c in
  ((n =? 32) || ((9 <=? n) && (n <=? 13)) || ((28 <=? n) && (n <=? 31)))%N.

Fixpoint lstrip (s : string) : string :=
  match s with
  | String c s' => if is_space c then lstrip s' else s
  | EmptyString => EmptyString
  end.

Fixpoint rstrip (s : string) : string :=
  match s with
  | EmptyString => EmptyString
  | String c s' =>
      match rstrip s' with
      | EmptyString => if is_space c then EmptyString else String c EmptyString
      | t => String c t
      end
  end.

(** Decimal digits with single underscores between them; [after_digit]
    says that the character before was a digit. *)
Fixpoint int_digits (acc : Z) (after_digit : bool) (s : string) : option Z :=
  match s with
  | EmptyString => if after_digit then Some acc else None
  | String c s' =>
      if is_digit c then int_digits (10 * acc + digit_val c) true s'
      else if Ascii.eqb c "_" then
             if after_digit then int_digits acc false s' else None
      else None
  end.

(** [int(s)] on the text of a configuration value: surrounding white
    space, an optional sign, decimal digits with single underscores
    between them. [None] stands for ValueError. This is [int] on every
    text of ASCII characters; on other texts [int] also reads the decimal
    digits and the white space of other scripts, so there only a number
    given here is the number [int] gives. *)
Definition int (s : str) : option Z :=
  match rstrip (lstrip s) with
  | String "-" d => option_map Z.opp (int_digits 0 false d)
  | String "+" d => int_digits 0 false d
  | d => int_digits 0 false d
  end.

End Py.

(** ** netaddr: addresses, networks and membership *)

Module netaddr.

Inductive version := IPv4 | IPv6.

Definition version_eqb (a b : version) : bool :=
  match a, b with
  | IPv4, IPv4 | IPv6, IPv6 => true
  | _, _ => false
  end.

Definition width (v : version) : Z :=
  match v with IPv4 => 32 | IPv6 => 128 end.

Record IPAddress := { addr_version : version; addr_value : Z }.

Record IPNetwork :=
  { net_version : version; net_value : Z; net_prefixlen : Z }.

(** [IPNetwork.__contains__] on an address: never across versions;
    otherwise the network bits of both values are compared. *)
Definition contains (net : IPNetwork) (ip : IPAddress) : bool :=
  if version_eqb net.(net_version) ip.(addr_version) then
    let shiftwidth := (width net.(net_version) - net.(net_prefixlen))%Z in
    (Z.shiftr net.(net_value) shiftwidth =? Z.shiftr ip.(addr_value) shiftwidth)%Z
  else false.

End netaddr.

(** ** A reader for plain address text

    netaddr's own reading of text ([netaddr.IPAddress(text)],
    [netaddr.IPNetwork(text)]) is a parameter of the development (see
    [Externals]): it accepts more forms than the ones below, netmasks and
    IPv4-mapped addresses among them. The reader below is what the sample
    deployment puts in its place. It reads the plain forms only: dotted
    quads of decimal octets without leading zeros for IPv4, colon-separated
    groups of up to four hex digits with at most one run of zero groups
    written [::] for IPv6, and a prefix length in decimal for a network. *)

Module PlainReader.

Import netaddr.

Definition leading_zero (s : string) : bool :=
  match s with
  | String "0" (String _ _) => true
  | _ => false
  end.

Definition octet (s : string) : option Z :=
  if leading_zero s then None
  else if (String.length s <=? 3)%nat then
    match Py.decimal s with
    | Some n => if (n <=? 255)%Z then Some n else None
    | None => None
    end
  else None.

Fixpoint join_groups (bits : Z) (acc : Z) (gs : list (option Z)) : option Z :=
  match gs with
  | [] => Some acc
  | Some g :: gs' => join_groups bits (Z.shiftl acc bits + g) gs'
  | None :: _ => None
  end.

Definition parse_ipv4 (s : string) : option Z :=
  let parts := Py.split "." s in
  if (List.length parts =? 4)%nat then join_groups 8 0 (map octet parts) else None.

Definition hex_val (c : ascii) : option Z :=
  let n := Z.of_N (Py.byte_val c) in
  if ((48 <=? n) && (n <=? 57))%Z then Some (n - 48)%Z
  else if ((97 <=? n) && (n <=? 102))%Z then Some (n - 87)%Z
  else if ((65 <=? n) && (n <=? 70))%Z then Some (n - 55)%Z
  else None.

Fixpoint hex_acc (acc : Z) (s : string) : option Z :=
  match s with
  | EmptyString => Some acc
  | String c s' =>
      match hex_val c with
      | Some d => hex_acc (16 * acc + d) s'
      | None => None
      end
  end.

Definition hextet (s : string) : option Z :=
  match s with
  | EmptyString => None
  | _ => if (String.length s <=? 4)%nat then hex_acc 0 s else None
  end.

Definition is_empty (s : string) : bool :=
  match s with EmptyString => true | _ => false end.

(** Groups left and right of the [::] marker, when there is one. *)
Fixpoint cut_at_empty (gs : list string) : list string * option (list string) :=
  match gs with
  | [] => ([], None)
  | g :: gs' =>
      if is_empty g then ([], Some gs')
      else let '(l, r) := cut_at_empty gs' in (g :: l, r)
  end.

Definition parse_ipv6 (s : string) : option Z :=
  let gs := Py.split ":" s in
  (* a leading or trailing [::] shows as two empty groups: drop the outer one *)
  let gs := match gs with
            | g1 :: g2 :: rest => if is_empty g1 then
                                    if is_empty g2 then Some (g2 :: rest) else None
                                  else Some gs
            | _ => None
            end in
  let gs := match gs with
            | Some gs =>
                match rev gs with
                | g1 :: g2 :: rest =>
                    if is_empty g1 then
                      if is_empty g2 then
                        match rest with
                        | [] => Some [g2]
                        | _ => Some (rev (g2 :: rest))
                        end
                      else None
                    else Some gs
                | _ => Some gs
                end
            | None => None
            end in
  match gs with
  | None => None
  | Some gs =>
      match cut_at_empty gs with
      | (l, None) =>
          if (List.length l =? 8)%nat then join_groups 16 0 (map hextet l) else None
      | (l, Some r) =>
          let n := (List.length l + List.length r)%nat in
          if (n <=? 7)%nat then
            join_groups 16 0
              (map hextet l ++ repeat (Some 0%Z) (8 - n) ++ map hextet r)
          else None
      end
  end.

(** An address in one of the two forms. *)
Definition address (s : str) : option IPAddress :=
  match parse_ipv4 s with
  | Some v => Some {| addr_version := IPv4; addr_value := v |}
  | None =>
      match parse_ipv6 s with
      | Some v => Some {| addr_version := IPv6; addr_value := v |}
      | None => None
      end
  end.

(** An address followed by an optional [/prefixlen] in decimal; without
    it the prefix is the full width. *)
Definition network (s : str) : option IPNetwork :=
  match Py.split "/" s with
  | [a] =>
      match address a with
      | Some ip => Some {| net_version := ip.(addr_version);
                           net_value := ip.(addr_value);
                           net_prefixlen := width ip.(addr_version) |}
      | None => None
      end
  | [a; p] =>
      match address a, Py.decimal p with
      | Some ip, Some n =>
          if (n <=? width ip.(addr_version))%Z
          then Some {| net_version := ip.(addr_version);
                       net_value := ip.(addr_value);
                       net_prefixlen := n |}
          else None
      | _, _ => None
      end
  | _ => None
  end.

End PlainReader.

(** ** Twisted's SMTP values, exceptions and results *)

Module smtp.

(** [smtp.Address]: the two sides of an address, as bytes. *)
Record Address := { local : bytes; domain : bytes }.

(** [smtp.User]: the recipient of a RCPT TO. *)
Record User := { dest : Address }.

(** The [helo] pair: the argument of HELO and the client's IP address. *)
Abbreviation Helo := (bytes * Py.PyVal)%type (only parsing).

End smtp.

Inductive PyExn :=
| SMTPBadSender (addr : Py.PyVal)
| SMTPBadRcpt (user : smtp.User) (resp : str)
| SyntaxError (text : str)
| ValueError
| UnicodeError
| UnicodeDecodeError
| UnicodeEncodeError
| AttributeError
| TypeError
| NoSectionError (section : str)
| NoOptionError (section opt : str)
| AddrFormatError
| AddressError
(** any other subclass of ValueError *)
| OtherValueError (name : str)
(** an exception that is neither a ValueError nor a SyntaxError *)
| OtherError (name : str).

(** What [except (UnicodeError, ValueError)] catches: ValueError and its
    subclasses. *)
Definition is_ValueError (e : PyExn) : bool :=
  match e with
  | ValueError | UnicodeError | UnicodeDecodeError | UnicodeEncodeError
  | OtherValueError _ => true
  | _ => false
  end.

Inductive PyResult (A : Type) :=
| Return (a : A)
| Raise (e : PyExn).
Arguments Return {A} a.
Arguments Raise {A} e.

(** ** ConfigParser: the sections, and the text of each option

    The table holds for each option of each section the text that
    [config.get] returns for it, that is, the value after interpolation,
    options inherited from the DEFAULT section included; a configuration
    with a value that does not interpolate is outside the development. Every
    option of the table is an option of one of the sections. *)

Record ConfigParser :=
  { sections : gset string;
    options : gmap (string * string) string }.

Abbreviation Config := ConfigParser (only parsing).

(** [config !! (section, option)]: the entry of the table. *)
#[global] Instance config_lookup : Lookup (string * string) string ConfigParser :=
  fun key config => config.(options) !! key.

Definition config_has_section (config : Config) (section : str) : bool :=
  bool_decide (section ∈ config.(sections)).

(** [config.remove_option(section, option)] *)
Definition config_remove_option (key : string * string) (config : Config) : Config :=
  {| sections := config.(sections); options := delete key config.(options) |}.

(** [config.set(section, option, value)], on a section that is there *)
Definition config_set (key : string * string) (value : str) (config : Config) : Config :=
  {| sections := config.(sections); options := <[ key := value ]> config.(options) |}.

(** What [config.get] raises for an option that is not there:
    NoSectionError when the section is missing, NoOptionError otherwise. *)
Definition config_missing (config : Config) (section opt : str) : PyExn :=
  if config_has_section config section then NoOptionError section opt
  else NoSectionError section.

Definition config_get (config : Config) (section opt : str) : PyResult str :=
  match config !! (section, opt) with
  | Some v => Return v
  | None => Raise (config_missing config section opt)
  end.

Definition config_get_fallback (config : Config) (section opt fallback : str) : str :=
  match config !! (section, opt) with
  | Some v => v
  | None => fallback
  end.

Definition config_has_option (config : Config) (section opt : str) : bool :=
  match config !! (section, opt) with
  | Some _ => true
  | None => false
  end.

Definition config_getint (config : Config) (section opt : str) : PyResult Z :=
  match config_get config section opt with
  | Return v => match Py.int v with
                | Some n => Return n
                | None => Raise ValueError
                end
  | Raise e => Raise e
  end.

(** ** email.message.Message: an ordered list of headers and a payload *)

Record Message := { headers : list (str * str); payload : str }.

Definition name_is (name : str) (kv : str * str) : bool :=
  String.eqb (Py.lower (fst kv)) (Py.lower name).

(** [name in msg] *)
Definition msg_contains (name : str) (msg : Message) : bool :=
  existsb (name_is name) msg.(headers).

(** [del msg[name]]: every header of that name goes, whatever its case. *)
Definition msg_delitem (name : str) (msg : Message) : Message :=
  {| headers := List.filter (fun kv => negb (name_is name kv)) msg.(headers);
     payload := msg.(payload) |}.

(** [msg[name] = val]: appended, nothing is replaced. *)
Definition msg_setitem (name val : str) (msg : Message) : Message :=
  {| headers := msg.(headers) ++ [(name, val)]; payload := msg.(payload) |}.

(** [msg.get_all(name)], as a list that is empty when there is none. *)
Definition msg_get_all (name : str) (msg : Message) : list str :=
  map snd (List.filter (name_is name) msg.(headers)).

(** [msg[name]]: the first header of that name, or None. *)
Definition msg_getitem (name : str) (msg : Message) : option str :=
  match msg_get_all name msg with
  | v :: _ => Some v
  | [] => None
  end.

(** ** The world outside the delivery objects *)

(** Set objects live in a heap and are held by reference. *)
Abbreviation loc := nat (only parsing).
Abbreviation Heap := (gmap nat (gset string)) (only parsing).

(** The text handed to [log.msg] or [log.err]. Where the source formats a
    tuple, an Address object or a set, the arguments are kept instead. *)
Inductive LogText :=
| Text (s : str)
| ReceivingFrom (helo : smtp.Helo) (origin : smtp.Address)
| RejectingFrom (helo : smtp.Helo) (origin : smtp.Address)
| SendingTo (recp : gset string).

Inductive LogEntry :=
| LogMsg (t : LogText)
| LogErr (t : LogText).

(** One call of the [sendmail] collaborator: the set is passed by
    reference; [sc_to_now] is what it holds when the call is made. *)
Record SendCall :=
  { sc_host : str; sc_from : str; sc_to : loc; sc_to_now : gset string;
    sc_msg : str; sc_port : Z }.

Inductive Continuation :=
| Callback (entry : LogEntry)
| Errback (entry : LogEntry).

(** The Deferred that [sendmail] returned for call number [d_call], with
    what has been chained on it. *)
Record Deferred := { d_call : nat; d_chain : list Continuation }.

Record World :=
  { w_log : list LogEntry;
    w_resolved : list str;
    w_sent : list SendCall;
    w_heap : Heap }.

Definition add_log (e : LogEntry) (w : World) : World :=
  {| w_log := w.(w_log) ++ [e]; w_resolved := w.(w_resolved);
     w_sent := w.(w_sent); w_heap := w.(w_heap) |}.

Definition add_resolved (a : str) (w : World) : World :=
  {| w_log := w.(w_log); w_resolved := w.(w_resolved) ++ [a];
     w_sent := w.(w_sent); w_heap := w.(w_heap) |}.

Definition add_sent (c : SendCall) (w : World) : World :=
  {| w_log := w.(w_log); w_resolved := w.(w_resolved);
     w_sent := w.(w_sent) ++ [c]; w_heap := w.(w_heap) |}.

Definition set_heap (h : Heap) (w : World) : World :=
  {| w_log := w.(w_log); w_resolved := w.(w_resolved);
     w_sent := w.(w_sent); w_heap := h |}.

(** [s |= t] on the set object at [l]: updated in place. *)
Definition set_ior (l : loc) (t : gset string) (h : Heap) : Heap :=
  alter (fun s => s ∪ t) l h.

Definition heap_read (l : loc) (h : Heap) : gset string :=
  default ∅ (h !! l).

(** ** Computations: a state threaded through, an exception or a value out *)

Definition M (S A : Type) : Type := S -> PyResult A * S.

Definition ret {S A} (a : A) : M S A := fun s => (Return a, s).

Definition raise {S A} (e : PyExn) : M S A := fun s => (Raise e, s).

Definition bind {S A B} (c : M S A) (k : A -> M S B) : M S B :=
  fun s => match c s with
           | (Return a, s') => k a s'
           | (Raise e, s') => (Raise e, s')
           end.

Definition modify {S} (f : S -> S) : M S unit := fun s => (Return tt, f s).

Definition gets {S A} (f : S -> A) : M S A := fun s => (Return (f s), s).

Definition lift_result {S A} (r : PyResult A) : M S A := fun s => (r, s).

Notation "'let*' x ':=' c 'in' k" := (bind c (fun x => k))
  (at level 10, x pattern, c at level 100, k at level 200).
Notation "c1 '>>' c2" := (bind c1 (fun _ => c2))
  (at level 100, c2 at level 200, right associativity).

(** ** Collaborators that are not part of service.py *)

(** [mailingset.parser.parse] over the cached list definitions: the subject
    tag and a reference to the recipient set, or an exception; the resolver
    may allocate or reuse set objects. A SyntaxError carries the text that
    [str(error)] gives. *)
Abbreviation Resolver := (str -> Heap -> PyResult (str * nat) * Heap) (only parsing).

Record Externals :=
  { (** [netaddr.IPNetwork(text)]; [None] stands for AddrFormatError *)
    netaddr_IPNetwork : str -> option netaddr.IPNetwork;
    (** the address that [IPNetwork.__contains__] reads from a text
        operand, the text of one address as the transport gives it for
        its peer; [None] stands for AddrFormatError *)
    netaddr_IPAddress : str -> option netaddr.IPAddress;
    (** what [smtp.Address(addr)] raises, if it raises: the constructor of
        [smtp.SMTPBadSender] parses its argument with it *)
    smtp_Address_error : Py.PyVal -> option PyExn;
    (** [str(address)] of an [smtp.Address], as ['%s'] takes it; [None]
        stands for UnicodeDecodeError *)
    smtp_Address_str : smtp.Address -> option str;
    (** [self.parse], injected by the factory *)
    parse : Resolver;
    (** [subject_prefix.SubjectPrefix().process(tag, msg)]: the message as
        the call leaves it, and the exception it raised if any *)
    process : str -> Message -> Message * option PyExn;
    (** [email.parser.FeedParser]: the message that [close()] builds from
        the text fed so far *)
    FeedParser_close : str -> Message;
    (** [msg.as_string()] *)
    as_string : Message -> str }.

(** ** class SetMessageDelivery *)

Section SetMessageDelivery.

Context (E : Externals).

Definition log_msg (t : LogText) : M World unit := modify (add_log (LogMsg t)).
Definition log_err (t : LogText) : M World unit := modify (add_log (LogErr t)).

(** [v.decode() if isinstance(v, bytes) else v]; [None] stands for
    UnicodeDecodeError. *)
Definition decode_if_bytes (v : Py.PyVal) : option str :=
  match v with
  | Py.PyBytes b => Py.decode b
  | Py.PyStr s => Some s
  end.

(** The exception that [raise smtp.SMTPBadSender(addr)] ends with: the
    constructor parses [addr] as a mail address, and what that raises
    comes out in place of the SMTPBadSender. *)
Definition bad_sender (addr : Py.PyVal) : PyExn :=
  match E.(smtp_Address_error) addr with
  | Some e => e
  | None => SMTPBadSender addr
  end.

(** ['... %s %s' % (helo, origin)], the text of both log lines: the pair
    is rendered by its repr, the origin by [str(origin)], which may
    raise. *)
Definition format_helo_origin (helo : smtp.Helo) (origin : smtp.Address)
    : M World unit :=
  match E.(smtp_Address_str) origin with
  | Some _ => ret tt
  | None => raise UnicodeDecodeError
  end.

(** The loop of [validateFrom] over [good.split(',')]. *)
Fixpoint validateFrom_loop (helo : smtp.Helo) (origin : smtp.Address)
    (cidrs : list str) : M World smtp.Address :=
  match cidrs with
  | [] =>
      format_helo_origin helo origin >>
      log_msg (RejectingFrom helo origin) >>
      raise (bad_sender (snd helo))
  | cidr :: rest =>
      let* client_ip :=
        match decode_if_bytes (snd helo) with
        | Some s => ret s
        | None => raise UnicodeDecodeError
        end in
      match E.(netaddr_IPNetwork) cidr with
      | None => raise AddrFormatError
      | Some net =>
          match E.(netaddr_IPAddress) client_ip with
          | None => raise AddrFormatError
          | Some ip =>
              if netaddr.contains net ip then
                format_helo_origin helo origin >>
                log_msg (ReceivingFrom helo origin) >>
                ret origin
              else validateFrom_loop helo origin rest
          end
      end
  end.

Definition accept_from (config : Config) : str :=
  config_get_fallback config "incoming" "accept_from" "0.0.0.0/0".

Definition validateFrom (config : Config) (helo : smtp.Helo)
    (origin : smtp.Address) : M World smtp.Address :=
  let good := accept_from config in
  validateFrom_loop helo origin (Py.split "," good).

(** What [validateTo] returns: the arguments its lambda closes over. *)
Record MessageFactory :=
  { mf_config : Config; mf_address : bytes; mf_subject_tag : str;
    mf_recipient_set : loc }.

Definition call_parse (address : str) : M World (PyResult (str * loc)) :=
  fun w =>
    let w1 := add_resolved address w in
    let '(r, h) := E.(parse) address w1.(w_heap) in
    (Return r, set_heap h w1).

Definition validateTo (config : Config) (user : smtp.User) : M World MessageFactory :=
  let domain := user.(smtp.dest).(smtp.domain) in
  let* own := lift_result (config_get config "incoming" "domain") in
  if negb (String.eqb domain (Py.encode own)) then
    log_msg (Text ("Rejecting domain " ++ Py.format_s (Py.PyBytes domain))) >>
    let reason := "Incorrect domain: " ++ Py.format_s (Py.PyBytes domain) in
    raise (SMTPBadRcpt user reason)
  else
    let local := user.(smtp.dest).(smtp.local) in
    match Py.decode local with
    | None => raise UnicodeDecodeError
    | Some address =>
        let* r := call_parse address in
        match r with
        | Return (subject_tag, recipient_set) =>
            ret {| mf_config := config; mf_address := local;
                   mf_subject_tag := subject_tag;
                   mf_recipient_set := recipient_set |}
        | Raise (SyntaxError error) =>
            log_msg (Text ("Rejecting address " ++ Py.format_s (Py.PyBytes local)
                           ++ ": " ++ error)) >>
            let reason := error in
            raise (SMTPBadRcpt user reason)
        | Raise e => raise e
        end
    end.

End SetMessageDelivery.

(** ** class SetMessage *)

Record SetMessage :=
  { config : Config;
    address : Py.PyVal;
    subject_tag : str;
    recipient_set : loc;
    (** the text fed to the FeedParser so far; [None] once it is dropped *)
    msg_parser : option str }.

(** [SetMessage.__init__] *)
Definition SetMessage_init (config : Config) (address : Py.PyVal)
    (subject_tag : str) (recipient_set : loc) : SetMessage :=
  {| config := config; address := address; subject_tag := subject_tag;
     recipient_set := recipient_set; msg_parser := Some "" |}.

(** Calling the lambda that [validateTo] returned. *)
Definition create (f : MessageFactory) : SetMessage :=
  SetMessage_init f.(mf_config) (Py.PyBytes f.(mf_address)) f.(mf_subject_tag)
    f.(mf_recipient_set).

Definition set_msg_parser (p : option str) (self : SetMessage) : SetMessage :=
  {| config := self.(config); address := self.(address);
     subject_tag := self.(subject_tag); recipient_set := self.(recipient_set);
     msg_parser := p |}.

(** The state a method of [SetMessage] runs in: [self] and the world. *)
Abbreviation Session := (SetMessage * World)%type (only parsing).

Definition on_self (f : SetMessage -> SetMessage) : M Session unit :=
  modify (fun s : Session => (f (fst s), snd s)).

Definition on_world (f : World -> World) : M Session unit :=
  modify (fun s : Session => (fst s, f (snd s))).

Section SetMessage.

Context (E : Externals).

(** [self.msg_parser.feed(data)]: on None there is no such attribute;
    the parser of text takes a [str] and raises TypeError on [bytes],
    with nothing buffered. *)
Definition feed (data : Py.PyVal) : M Session unit :=
  let* p := gets (fun s : Session => (fst s).(msg_parser)) in
  match p with
  | Some text =>
      match data with
      | Py.PyStr data => on_self (set_msg_parser (Some (text ++ data)))
      | Py.PyBytes _ => raise TypeError
      end
  | None => raise AttributeError
  end.

Definition newline : string := String (ascii_of_N 10) EmptyString.

Definition lineReceived (line : Py.PyVal) : M Session unit :=
  feed line >>
  feed (Py.PyStr newline).

Definition connectionLost : M Session unit :=
  let* self := gets (fun s : Session => fst s) in
  on_world (add_log (LogErr (Text ("Connection lost " ++ Py.format_s self.(address))))) >>
  on_self (set_msg_parser None).

Definition _munge_header (self : SetMessage) (msg : Message) : PyResult Message :=
  let tag := "[" ++ self.(subject_tag) ++ "] " in
  let '(msg, raised) := E.(process) tag msg in
  (* try: ... except (UnicodeError, ValueError): pass *)
  let uncaught := match raised with
                  | Some e => if is_ValueError e then None else Some e
                  | None => None
                  end in
  match uncaught with
  | Some e => Raise e
  | None =>
      let msg := if negb (msg_contains "precedence" msg)
                 then msg_setitem "Precedence" "list" msg
                 else msg in
      match config_get self.(config) "incoming" "domain" with
      | Raise e => Raise e
      | Return domain =>
          let msg := msg_delitem "list-id" msg in
          let msg := msg_setitem "List-Id"
                       ("<" ++ Py.format_s self.(address) ++ ".mailingset." ++ domain ++ ">")
                       msg in
          let msg := msg_delitem "list-post" msg in
          let msg := msg_setitem "List-Post"
                       ("<mailto:" ++ Py.format_s self.(address) ++ "@" ++ domain ++ ">")
                       msg in
          Return msg
      end
  end.

(** [self.sendmail(host, sender, recp, text, port=port)]: the call is
    recorded and a Deferred with nothing chained on it comes back. *)
Definition sendmail (host sender : str) (recp : loc) (text : str) (port : Z)
    : M Session Deferred :=
  fun s =>
    let w := snd s in
    let call := {| sc_host := host; sc_from := sender; sc_to := recp;
                   sc_to_now := heap_read recp w.(w_heap);
                   sc_msg := text; sc_port := port |} in
    (Return {| d_call := List.length w.(w_sent); d_chain := [] |},
     (fst s, add_sent call w)).

Definition addCallback (entry : LogEntry) (d : Deferred) : Deferred :=
  {| d_call := d.(d_call); d_chain := d.(d_chain) ++ [Callback entry] |}.

Definition addErrback (entry : LogEntry) (d : Deferred) : Deferred :=
  {| d_call := d.(d_call); d_chain := d.(d_chain) ++ [Errback entry] |}.

(** [str(msg['Subject'])] *)
Definition subject_text (msg : Message) : str :=
  match msg_getitem "Subject" msg with
  | Some v => v
  | None => "None"
  end.

Definition eomReceived : M Session Deferred :=
  let* p := gets (fun s : Session => (fst s).(msg_parser)) in
  match p with
  | None => raise AttributeError
  | Some text =>
      let msg := E.(FeedParser_close) text in
      on_self (set_msg_parser None) >>
      let* self := gets (fun s : Session => fst s) in
      let* msg := lift_result (_munge_header self msg) in
      let recp := self.(recipient_set) in
      (if config_has_option self.(config) "outgoing" "archive_addr" then
         let* archive_addr :=
           lift_result (config_get self.(config) "outgoing" "archive_addr") in
         on_world (fun w => set_heap (set_ior recp {[ archive_addr ]} w.(w_heap)) w)
       else ret tt) >>
      on_world (add_log (LogMsg (Text ("Subject: " ++ subject_text msg)))) >>
      let* now := gets (fun s : Session => heap_read recp (snd s).(w_heap)) in
      on_world (add_log (LogMsg (SendingTo now))) >>
      let* outgoing_server := lift_result (config_get self.(config) "outgoing" "server") in
      let* outgoing_port := lift_result (config_getint self.(config) "outgoing" "port") in
      let* envelope_sender :=
        lift_result (config_get self.(config) "outgoing" "envelope_sender") in
      let* send := sendmail outgoing_server envelope_sender recp
                     (E.(as_string) msg) outgoing_port in
      let send := addCallback
                    (LogMsg (Text ("Success " ++ Py.format_s self.(address)))) send in
      let send := addErrback
                    (LogErr (Text ("Failure " ++ Py.format_s self.(address)))) send in
      ret send
  end.

End SetMessage.

(** The calls the protocol makes on a message object. *)
Inductive Call :=
| CallLine (line : Py.PyVal)
| CallEom
| CallLost.

Definition run_call (E : Externals) (c : Call) (s : Session) : Session :=
  match c with
  | CallLine line => snd (lineReceived line s)
  | CallEom => snd (eomReceived E s)
  | CallLost => snd (connectionLost s)
  end.

(** The calls in order, each on the state the one before left, whether it
    returned or raised. *)
Definition run_calls (E : Externals) (cs : list Call) (s : Session) : Session :=
  fold_left (fun s c => run_call E c s) cs s.

(** ** Subject tagging *)

(** Modelled from the spec: mailingset/mailman/subject_prefix.py, the module
    behind [SubjectPrefix().process], is not among the sources. Following
    section 4.5: the tag is put in front of the Subject unless the Subject
    already starts with it; when encoding the new value fails (here the
    codec gives [None], which raises UnicodeEncodeError) the message is left
    as it was. The spec does not say what happens without a Subject header;
    the model reads a missing Subject as the empty text. *)
Definition SubjectPrefix_process (codec : str -> option bytes) (tag : str)
    (msg : Message) : Message * option PyExn :=
  let subject := default "" (msg_getitem "subject" msg) in
  if String.prefix tag subject then (msg, None)
  else
    let value := tag ++ subject in
    match codec value with
    | None => (msg, Some UnicodeEncodeError)
    | Some _ => (msg_setitem "Subject" value (msg_delitem "subject" msg), None)
    end.

(** The collaborators of [E] with subject tagging as the spec words it. *)
Definition with_tagging (codec : str -> option bytes) (E : Externals) : Externals :=
  {| netaddr_IPNetwork := E.(netaddr_IPNetwork);
     netaddr_IPAddress := E.(netaddr_IPAddress);
     smtp_Address_error := E.(smtp_Address_error);
     smtp_Address_str := E.(smtp_Address_str);
     parse := E.(parse);
     process := SubjectPrefix_process codec;
     FeedParser_close := E.(FeedParser_close);
     as_string := E.(as_string) |}.

(** ** A sample deployment, for running the definitions on concrete inputs *)

Module Sample.

(** The ASCII codec. *)
Fixpoint ascii_codec (s : str) : option bytes :=
  match s with
  | EmptyString => Some EmptyString
  | String c s' =>
      if (Py.byte_val c <? 128)%N
      then option_map (String c) (ascii_codec s')
      else None
  end.

Definition plain_char (c : ascii) : bool :=
  negb (Ascii.eqb c "&").

Fixpoint well_formed (s : str) : bool :=
  match s with
  | EmptyString => true
  | String c s' => plain_char c && well_formed s'
  end.

(** A resolver with one cached set at location 0 for every well-formed
    expression; an expression holding [&] is a syntax error. *)
Definition resolver (a : str) (h : gmap nat (gset string))
    : PyResult (str * nat) * gmap nat (gset string) :=
  if well_formed a then (Return (a, 0%nat), h)
  else (Raise (SyntaxError ("unexpected token in " ++ a)), h).

(** A line-based reading of a message: [Name: value] lines up to the first
    empty line, the payload after it. *)
Definition header_of (line : str) : option (str * str) :=
  match Py.split ":" line with
  | name :: v :: vs => Some (name, Py.lstrip (String.concat ":" (v :: vs)))
  | _ => None
  end.

Fixpoint read_headers (lines : list str) : list (str * str) * list str :=
  match lines with
  | [] => ([], [])
  | l :: ls =>
      match l with
      | EmptyString => ([], ls)
      | _ => let '(hs, body) := read_headers ls in
             match header_of l with
             | Some h => (h :: hs, body)
             | None => (hs, body)
             end
      end
  end.

Definition read_message (text : str) : Message :=
  let '(hs, body) := read_headers (Py.split (ascii_of_N 10) text) in
  {| headers := hs; payload := String.concat newline body |}.

Definition write_message (msg : Message) : str :=
  String.concat ""
    (map (fun kv => fst kv ++ ": " ++ snd kv ++ newline) msg.(headers))
  ++ newline ++ msg.(payload).

(** The atom characters of a mail address. *)
Definition atom_char (c : ascii) : bool :=
  let n := Py.byte_val c in
  ((65 <=? n) && (n <=? 90) || (97 <=? n) && (n <=? 122)
   || (48 <=? n) && (n <=? 57))%N
  || Py.mem_char c "-!#$%&'*+/=?^_`{|}~".

Fixpoint plain_address_text (s : bytes) : bool :=
  match s with
  | EmptyString => true
  | String c s' => (atom_char c || Ascii.eqb c ".") && plain_address_text s'
  end.

Fixpoint is_ascii (s : bytes) : bool :=
  match s with
  | EmptyString => true
  | String c s' => (Py.byte_val c <? 128)%N && is_ascii s'
  end.

(** What [smtp.Address(addr)] raises on a text without angle brackets,
    [@], quotes and backslashes, as the texts of IP addresses are: such a
    text is cut into runs of atom characters and single other characters,
    and a single character that is neither an atom character nor a dot is
    a parse error. A [str] is first encoded as ASCII. *)
Definition address_error (addr : Py.PyVal) : option PyExn :=
  match addr with
  | Py.PyStr s =>
      if is_ascii s then
        if plain_address_text s then None else Some AddressError
      else Some UnicodeEncodeError
  | Py.PyBytes b => if plain_address_text b then None else Some AddressError
  end.

(** [Address.__str__]: the local part and the domain joined by [@], or the
    empty text when both are empty, decoded as ASCII. *)
Definition address_str (a : smtp.Address) : option str :=
  let b := match a.(smtp.local), a.(smtp.domain) with
           | EmptyString, EmptyString => EmptyString
           | l, d => l ++ "@" ++ d
           end in
  if is_ascii b then Some b else None.

Definition externals : Externals :=
  {| netaddr_IPNetwork := PlainReader.network;
     netaddr_IPAddress := PlainReader.address;
     smtp_Address_error := address_error;
     smtp_Address_str := address_str;
     parse := resolver;
     process := SubjectPrefix_process ascii_codec;
     FeedParser_close := read_message;
     as_string := write_message |}.

Definition conf : ConfigParser :=
  {| sections := {[ "incoming"; "outgoing" ]};
     options :=
       list_to_map
         [ (("incoming", "domain"), "lists.example.com");
           (("incoming", "accept_from"), "10.0.0.0/8");
           (("outgoing", "server"), "mail.example.com");
           (("outgoing", "port"), "25");
           (("outgoing", "envelope_sender"), "bounce@lists.example.com");
           (("outgoing", "archive_addr"), "archive@x.com") ] |}.

Definition conf_no_archive : ConfigParser :=
  config_remove_option ("outgoing", "archive_addr") conf.


Definition heap0 : gmap nat (gset string) :=
  {[ 0%nat := {[ "a@x.com"; "b@x.com" ]} ]}.

Definition world0 : World :=
  {| w_log := []; w_resolved := []; w_sent := []; w_heap := heap0 |}.

Definition origin : smtp.Address :=
  {| smtp.local := "alice"; smtp.domain := "example.org" |}.

Definition rcpt (l d : bytes) : smtp.User :=
  {| smtp.dest := {| smtp.local := l; smtp.domain := d |} |}.

(** The three lines of a short message, as text. *)
Definition lines : list Py.PyVal :=
  [Py.PyStr "Subject: hi"; Py.PyStr ""; Py.PyStr "body"].

(** A message object for eng+sales that has received the three lines. *)
Definition message : SetMessage :=
  fst (run_calls externals (map CallLine lines)
         (SetMessage_init conf (Py.PyBytes "eng+sales") "eng+sales" 0, world0)).

(** "caf" followed by e with an acute accent, which the ASCII codec cannot
    encode. *)
Definition accented : str :=
  "caf" ++ String (ascii_of_N 195) (String (ascii_of_N 169) EmptyString).



End Sample.


(** ** Vocabulary of the properties *)

(** [ip in netaddr.IPNetwork(cidr)] for an entry of the allow-list. *)
Definition in_range (E : Externals) (ip : netaddr.IPAddress) (cidr : str) : bool :=
  match E.(netaddr_IPNetwork) cidr with
  | Some net => netaddr.contains net ip
  | None => false
  end.

(** The entries of the configured allow-list, in declared order. *)
Definition allow_list (config : Config) : list str :=
  Py.split "," (accept_from config).

(** ['[%s] ' % (self.subject_tag,)] *)
Definition tag_of (self : SetMessage) : str :=
  "[" ++ self.(subject_tag) ++ "] ".

(** ['<%s.mailingset.%s>' % (self.address, domain)] *)
Definition list_id_of (self : SetMessage) (domain : str) : str :=
  "<" ++ Py.format_s self.(address) ++ ".mailingset." ++ domain ++ ">".

(** ['<mailto:%s@%s>' % (self.address, domain)] *)
Definition list_post_of (self : SetMessage) (domain : str) : str :=
  "<mailto:" ++ Py.format_s self.(address) ++ "@" ++ domain ++ ">".

(** [_munge_header] for each of [selves] in turn on the same message. *)
Fixpoint munge_each (E : Externals) (selves : list SetMessage) (msg : Message)
    : PyResult Message :=
  match selves with
  | [] => Return msg
  | self :: rest =>
      match _munge_header E self msg with
      | Return msg' => munge_each E rest msg'
      | Raise e => Raise e
      end
  end.

(** The only exceptions [process] raises are those the rewrite catches. *)
Definition raises_only_ValueError (E : Externals) : Prop :=
  forall tag msg e, snd (E.(process) tag msg) = Some e -> is_ValueError e = true.

(** The list headers of a rewrite, put on a message. *)
Definition put_list_headers (id post : str) (msg : Message) : Message :=
  msg_setitem "List-Post" post
    (msg_delitem "list-post" (msg_setitem "List-Id" id (msg_delitem "list-id" msg))).

(** The Precedence header of a rewrite: set only when there is none. *)
Definition put_precedence (msg : Message) : Message :=
  if negb (msg_contains "precedence" msg)
  then msg_setitem "Precedence" "list" msg else msg.







(** MAIL FROM from 10.1.2.3, RCPT TO eng+sales at the configured domain,
    the three lines of [Sample.lines] handed over as text, and the end of
    the message. *)
Definition sample_session (config : Config) : Session :=
  let w1 := snd (validateFrom Sample.externals config
                   ("client", Py.PyBytes "10.1.2.3")
                   Sample.origin Sample.world0) in
  let r := validateTo Sample.externals config
             (Sample.rcpt "eng+sales" "lists.example.com") w1 in
  match fst r with
  | Return factory =>
      run_calls Sample.externals (map CallLine Sample.lines ++ [CallEom])
        (create factory, snd r)
  | Raise _ => (SetMessage_init config (Py.PyStr "") "" 0, snd r)
  end.


(** What one call of [lineReceived] adds to the buffer of the FeedParser:
    a line of text and a newline, and nothing for a line of bytes. *)
Definition fed_piece (line : Py.PyVal) : str :=
  match line with
  | Py.PyStr s => s ++ newline
  | Py.PyBytes _ => ""
  end.

(** What the FeedParser has buffered after [lines]. *)
Definition fed_text (lines : list Py.PyVal) : str :=
  String.concat "" (map fed_piece lines).

(** ** Further deployments, for the edge cases *)

Module Cases.

(** An allow-list with a trailing comma: its last entry is empty. *)
Definition conf_trailing_comma : ConfigParser :=
  config_set ("incoming", "accept_from") "192.168.0.0/16,10.0.0.0/8," Sample.conf.

Definition conf_no_domain : ConfigParser :=
  config_remove_option ("incoming", "domain") Sample.conf.


(** A configuration without a section [incoming]. *)
Definition conf_no_incoming : ConfigParser :=
  {| sections := {[ "outgoing" ]};
     options := filter (fun kv => fst (fst kv) = "outgoing") (options Sample.conf) |}.

(** A resolver that fails with an error of its own. *)
Definition crashing : Externals :=
  {| netaddr_IPNetwork := netaddr_IPNetwork Sample.externals;
     netaddr_IPAddress := netaddr_IPAddress Sample.externals;
     smtp_Address_error := smtp_Address_error Sample.externals;
     smtp_Address_str := smtp_Address_str Sample.externals;
     parse := fun _ h => (Raise (OtherError "KeyError"), h);
     process := process Sample.externals;
     FeedParser_close := FeedParser_close Sample.externals;
     as_string := as_string Sample.externals |}.

(** Another origin, and one whose local part is not ASCII. *)
Definition origin_bob : smtp.Address :=
  {| smtp.local := "bob"; smtp.domain := "example.net" |}.

Definition origin_accented : smtp.Address :=
  {| smtp.local := Sample.accented; smtp.domain := "example.org" |}.

(** A local part that is no UTF-8 text: the single byte 0xff. *)
Definition rcpt_not_utf8 : smtp.User :=
  Sample.rcpt (String (ascii_of_N 255) EmptyString) "lists.example.com".

(** [Sample.message] with another configuration. *)
Definition message_with (config : ConfigParser) : SetMessage :=
  {| config := config; address := address Sample.message;
     subject_tag := subject_tag Sample.message;
     recipient_set := recipient_set Sample.message;
     msg_parser := msg_parser Sample.message |}.

End Cases.

(** * Properties *)

(** ** Sender validation *)


(** The loop of [validateFrom], one step at a time. *)
Lemma validateFrom_loop_nil E helo origin w :
  validateFrom_loop E helo origin [] w =
    match E.(smtp_Address_str) origin with
    | None => (Raise UnicodeDecodeError, w)
    | Some _ => (Raise (bad_sender E (snd helo)),
                 add_log (LogMsg (RejectingFrom helo origin)) w)
    end.
Proof.
  cbn [validateFrom_loop]. unfold bind at 1, format_helo_origin.
  destruct (smtp_Address_str E origin); reflexivity.
Qed.

Lemma validateFrom_loop_cons E helo origin cidr rest w :
  validateFrom_loop E helo origin (cidr :: rest) w =
    match decode_if_bytes (snd helo) with
    | None => (Raise UnicodeDecodeError, w)
    | Some s =>
        match E.(netaddr_IPNetwork) cidr with
        | None => (Raise AddrFormatError, w)
        | Some net =>
            match E.(netaddr_IPAddress) s with
            | None => (Raise AddrFormatError, w)
            | Some ip =>
                if netaddr.contains net ip
                then match E.(smtp_Address_str) origin with
                     | None => (Raise UnicodeDecodeError, w)
                     | Some _ =>
                         (Return origin,
                          add_log (LogMsg (ReceivingFrom helo origin)) w)
                     end
                else validateFrom_loop E helo origin rest w
            end
        end
    end.
Proof.
  cbn [validateFrom_loop]. unfold bind at 1.
  destruct (decode_if_bytes (snd helo)) as [s |]; [| reflexivity].
  unfold ret at 1. cbn beta iota.
  destruct (netaddr_IPNetwork E cidr) as [net |]; [| reflexivity].
  destruct (netaddr_IPAddress E s) as [ip |]; [| reflexivity].
  destruct (netaddr.contains net ip); [| reflexivity].
  unfold bind at 1, format_helo_origin.
  destruct (smtp_Address_str E origin); reflexivity.
Qed.

Lemma validateFrom_loop_skips E helo origin s ip before rest w :
  decode_if_bytes (snd helo) = Some s ->
  E.(netaddr_IPAddress) s = Some ip ->
  Forall (fun c => is_Some (E.(netaddr_IPNetwork) c) /\ in_range E ip c = false)
    before ->
  validateFrom_loop E helo origin (before ++ rest) w
  = validateFrom_loop E helo origin rest w.
Proof.
  intros Hdec Hip Hbefore.
  induction Hbefore as [| c before [[net Hnet] Hout] _ IH]; [reflexivity |].
  cbn [app]. rewrite validateFrom_loop_cons, Hdec.
  unfold in_range in Hout. rewrite Hnet in *. rewrite Hip, Hout.
  exact IH.
Qed.





(** *** The default allow-list *)

(** The plain reader gives IPv4 addresses of 32 bits. *)
Lemma decimal_acc_nonneg s : forall acc n,
  (0 <= acc)%Z -> Py.decimal_acc acc s = Some n -> (0 <= n)%Z.
Proof.
  induction s as [| c s IH]; simpl; intros acc n Hacc H.
  - congruence.
  - destruct (Py.is_digit c) eqn:Hd; [| discriminate].
    eapply IH; [| exact H].
    unfold Py.is_digit in Hd. unfold Py.digit_val.
    apply andb_prop in Hd as [Hlo _]. apply N.leb_le in Hlo. lia.
Qed.

Lemma octet_range s n : PlainReader.octet s = Some n -> (0 <= n <= 255)%Z.
Proof.
  unfold PlainReader.octet.
  destruct (PlainReader.leading_zero s); [discriminate |].
  destruct (String.length s <=? 3)%nat; [| discriminate].
  destruct (Py.decimal s) as [m |] eqn:Hm; [| discriminate].
  destruct (m <=? 255)%Z eqn:Hle; [| discriminate].
  intros [= <-]. split; [| now apply Z.leb_le].
  unfold Py.decimal in Hm. destruct s; [discriminate |].
  eapply decimal_acc_nonneg; [| exact Hm]. lia.
Qed.

Lemma parse_ipv4_range s v : PlainReader.parse_ipv4 s = Some v -> (0 <= v < 2 ^ 32)%Z.
Proof.
  unfold PlainReader.parse_ipv4.
  destruct (Py.split "." s) as [| a [| b [| c [| d [| e parts]]]]]; simpl; try discriminate.
  destruct (PlainReader.octet a) as [oa |] eqn:Ha; [| discriminate].
  destruct (PlainReader.octet b) as [ob |] eqn:Hb; [| discriminate].
  destruct (PlainReader.octet c) as [oc |] eqn:Hc; [| discriminate].
  destruct (PlainReader.octet d) as [od |] eqn:Hd; [| discriminate].
  apply octet_range in Ha. apply octet_range in Hb.
  apply octet_range in Hc. apply octet_range in Hd.
  intros [= <-]. rewrite !Z.shiftl_mul_pow2 by lia. lia.
Qed.

Lemma plain_address_IPv4_range s ip :
  PlainReader.address s = Some ip ->
  netaddr.addr_version ip = netaddr.IPv4 ->
  (0 <= netaddr.addr_value ip < 2 ^ 32)%Z.
Proof.
  unfold PlainReader.address.
  destruct (PlainReader.parse_ipv4 s) as [v |] eqn:H4.
  - intros [= <-] _. simpl. exact (parse_ipv4_range s v H4).
  - destruct (PlainReader.parse_ipv6 s); [| discriminate].
    intros [= <-]. discriminate.
Qed.






(** ** Recipient validation *)

(** C3. A recipient whose domain differs (byte for byte, so also when
    only the case differs) from [incoming.domain] is refused with
    SMTPBadRcpt, and the reason says so: it is the text "Incorrect domain: "
    followed by the rejected domain as line 179 formats it. The outcome is
    the same for every local part and every resolver: the resolver is not
    called and the heap is not touched. *)
Theorem validateTo_rejects_foreign_domain
    (E : Externals) (config : Config) (user : smtp.User) (w : World) (own : str) :
  config !! ("incoming", "domain") = Some own ->
  user.(smtp.dest).(smtp.domain) <> Py.encode own ->
  let shown := Py.format_s (Py.PyBytes user.(smtp.dest).(smtp.domain)) in
  validateTo E config user w =
    (Raise (SMTPBadRcpt user ("Incorrect domain: " ++ shown)),
     add_log (LogMsg (Text ("Rejecting domain " ++ shown))) w) /\
  w_resolved (snd (validateTo E config user w)) = w_resolved w /\
  w_heap (snd (validateTo E config user w)) = w_heap w.
Proof.
  intros Hown Hne shown.
  assert (Hrun : validateTo E config user w =
            (Raise (SMTPBadRcpt user ("Incorrect domain: " ++ shown)),
             add_log (LogMsg (Text ("Rejecting domain " ++ shown))) w)).
  { unfold validateTo, config_get. rewrite Hown.
    unfold bind at 1, lift_result at 1.
    apply String.eqb_neq in Hne. rewrite Hne. reflexivity. }
  rewrite Hrun. auto.
Qed.

Lemma validateTo_rejects_foreign_domain_example :
  fst (validateTo Sample.externals Sample.conf
         (Sample.rcpt "eng+sales" "lists.example.org") Sample.world0)
  = Raise (SMTPBadRcpt (Sample.rcpt "eng+sales" "lists.example.org")
             "Incorrect domain: b'lists.example.org'").
Proof.
  refine (f_equal fst
            (proj1 (validateTo_rejects_foreign_domain Sample.externals Sample.conf
                      (Sample.rcpt "eng+sales" "lists.example.org") Sample.world0
                      "lists.example.com" _ _))).
  - vm_compute; reflexivity.
  - vm_compute; discriminate.
Defined.

(** C7. When the domain matches and the resolver raises SyntaxError on the
    decoded local part, [validateTo] raises SMTPBadRcpt whose reason is the
    text of that error, unchanged. *)
Theorem validateTo_reason_is_resolver_error
    (E : Externals) (config : Config) (user : smtp.User) (w : World)
    (own address error : str) (h : Heap) :
  config !! ("incoming", "domain") = Some own ->
  user.(smtp.dest).(smtp.domain) = Py.encode own ->
  Py.decode user.(smtp.dest).(smtp.local) = Some address ->
  E.(parse) address w.(w_heap) = (Raise (SyntaxError error), h) ->
  fst (validateTo E config user w) = Raise (SMTPBadRcpt user error) /\
  w_resolved (snd (validateTo E config user w)) = (w_resolved w ++ [address])%list /\
  w_sent (snd (validateTo E config user w)) = w_sent w.
Proof.
  intros Hown Hdom Hdec Hparse.
  assert (Hrun : validateTo E config user w =
            (Raise (SMTPBadRcpt user error),
             add_log (LogMsg (Text ("Rejecting address "
                                    ++ Py.format_s (Py.PyBytes user.(smtp.dest).(smtp.local))
                                    ++ ": " ++ error)))
               (set_heap h (add_resolved address w)))).
  { unfold validateTo, config_get. rewrite Hown.
    unfold bind at 1, lift_result at 1.
    rewrite Hdom, String.eqb_refl. cbn [negb]. rewrite Hdec.
    unfold bind at 1, call_parse at 1.
    cbn [w_heap add_resolved]. rewrite Hparse. reflexivity. }
  rewrite Hrun. cbn. auto.
Qed.

Lemma validateTo_reason_is_resolver_error_example :
  fst (validateTo Sample.externals Sample.conf
         (Sample.rcpt "a&&b" "lists.example.com") Sample.world0)
  = Raise (SMTPBadRcpt (Sample.rcpt "a&&b" "lists.example.com")
             "unexpected token in a&&b").
Proof.
  refine (proj1 (validateTo_reason_is_resolver_error Sample.externals Sample.conf
                   (Sample.rcpt "a&&b" "lists.example.com") Sample.world0
                   "lists.example.com" "a&&b" "unexpected token in a&&b"
                   Sample.heap0 _ _ _ _)); vm_compute; reflexivity.
Defined.

(** ** Header rewriting *)

Section Headers.

Implicit Types (name key val : str) (msg : Message).

Lemma name_is_pair name key val :
  name_is name (key, val) = String.eqb (Py.lower key) (Py.lower name).
Proof. reflexivity. Qed.

Lemma get_all_setitem name key val msg :
  msg_get_all name (msg_setitem key val msg) =
  (msg_get_all name msg
   ++ if String.eqb (Py.lower key) (Py.lower name) then [val] else [])%list.
Proof.
  unfold msg_get_all, msg_setitem. cbn [headers].
  rewrite List.filter_app, map_app. cbn [List.filter]. rewrite name_is_pair.
  now destruct (String.eqb (Py.lower key) (Py.lower name)).
Qed.

Lemma get_all_delitem_same name key msg :
  Py.lower name = Py.lower key ->
  msg_get_all name (msg_delitem key msg) = [].
Proof.
  intros Heq. unfold msg_get_all, msg_delitem, name_is. cbn [headers].
  rewrite <- Heq.
  induction (headers msg) as [| kv hs IH]; [reflexivity |].
  cbn [List.filter].
  destruct (String.eqb (Py.lower (fst kv)) (Py.lower name)) eqn:Hkv; cbn [negb].
  - exact IH.
  - cbn [List.filter]. rewrite Hkv. exact IH.
Qed.

Lemma get_all_delitem_other name key msg :
  Py.lower name <> Py.lower key ->
  msg_get_all name (msg_delitem key msg) = msg_get_all name msg.
Proof.
  intros Hne. unfold msg_get_all, msg_delitem. cbn [headers].
  induction (headers msg) as [| kv hs IH]; [reflexivity |].
  cbn [List.filter].
  destruct (name_is key kv) eqn:Hk; cbn [negb].
  - destruct (name_is name kv) eqn:Hn.
    + exfalso. apply Hne. unfold name_is in *.
      apply String.eqb_eq in Hk, Hn. congruence.
    + exact IH.
  - cbn [List.filter]. destruct (name_is name kv); cbn [map]; now rewrite IH.
Qed.

Lemma contains_get_all name msg :
  msg_contains name msg = negb (match msg_get_all name msg with [] => true | _ => false end).
Proof.
  unfold msg_contains, msg_get_all.
  induction (headers msg) as [| kv hs IH]; [reflexivity |].
  cbn [existsb List.filter]. destruct (name_is name kv); [reflexivity | exact IH].
Qed.

End Headers.

(** What a rewrite that gets past [process] returns. *)
Lemma munge_header_returns (E : Externals) (self : SetMessage) (msg : Message)
    (domain : str) :
  self.(config) !! ("incoming", "domain") = Some domain ->
  (forall e, snd (E.(process) (tag_of self) msg) = Some e -> is_ValueError e = true) ->
  let m0 := fst (E.(process) (tag_of self) msg) in
  let m1 := if negb (msg_contains "precedence" m0)
            then msg_setitem "Precedence" "list" m0 else m0 in
  _munge_header E self msg =
    Return (msg_setitem "List-Post" (list_post_of self domain)
              (msg_delitem "list-post"
                 (msg_setitem "List-Id" (list_id_of self domain)
                    (msg_delitem "list-id" m1)))).
Proof.
  intros Hdom Hcaught. unfold _munge_header. fold (tag_of self).
  destruct (process E (tag_of self) msg) as [m raised]. cbn [fst snd] in *.
  assert (Hnone : match raised with
                  | Some e => if is_ValueError e then None else Some e
                  | None => None
                  end = None).
  { destruct raised as [e |]; [| reflexivity]. now rewrite (Hcaught e eq_refl). }
  rewrite Hnone. unfold config_get. rewrite Hdom. reflexivity.
Qed.

Lemma munge_header_list_headers (E : Externals) (self : SetMessage) (msg : Message)
    (domain : str) :
  self.(config) !! ("incoming", "domain") = Some domain ->
  (forall e, snd (E.(process) (tag_of self) msg) = Some e -> is_ValueError e = true) ->
  exists msg', _munge_header E self msg = Return msg' /\
               msg_get_all "List-Id" msg' = [list_id_of self domain] /\
               msg_get_all "List-Post" msg' = [list_post_of self domain].
Proof.
  intros Hdom Hcaught.
  eexists. split; [apply (munge_header_returns E self msg domain Hdom Hcaught) |].
  split.
  - rewrite get_all_setitem, get_all_delitem_other by (vm_compute; discriminate).
    rewrite get_all_setitem, get_all_delitem_same by reflexivity.
    reflexivity.
  - rewrite get_all_setitem, get_all_delitem_same by reflexivity.
    reflexivity.
Qed.

Lemma tagging_raises_only_ValueError codec (E : Externals) :
  raises_only_ValueError (with_tagging codec E).
Proof.
  intros tag msg e. cbn [with_tagging process]. unfold SubjectPrefix_process.
  destruct (String.prefix tag _); [discriminate |].
  destruct (codec _); [discriminate |].
  cbn. now intros [= <-].
Qed.

Lemma sample_raises_only_ValueError : raises_only_ValueError Sample.externals.
Proof. exact (tagging_raises_only_ValueError Sample.ascii_codec Sample.externals). Qed.

Lemma sample_accepts_eng_sales :
  validateTo Sample.externals Sample.conf
    (Sample.rcpt "eng+sales" "lists.example.com") Sample.world0
  = (Return {| mf_config := Sample.conf; mf_address := "eng+sales";
               mf_subject_tag := "eng+sales"; mf_recipient_set := 0 |},
     add_resolved "eng+sales" Sample.world0).
Proof. vm_compute; reflexivity. Qed.

(** C4. The rewrite leaves exactly one List-Id and one List-Post header,
    but not with the values of the claim. For the recipient
    eng+sales@lists.example.com, which [validateTo] accepts, the message
    object is bound to the local part as bytes (the resolver got it
    decoded, the message object did not), and ['%s'] renders bytes by their
    repr: whatever the message, the headers come out with [b'eng+sales']
    where the address was meant. *)
Theorem munge_header_writes_the_repr_of_the_address (msg : Message) :
  exists factory w msg',
    validateTo Sample.externals Sample.conf
      (Sample.rcpt "eng+sales" "lists.example.com") Sample.world0
    = (Return factory, w) /\
    address (create factory) = Py.PyBytes "eng+sales" /\
    _munge_header Sample.externals (create factory) msg = Return msg' /\
    msg_get_all "List-Id" msg' = ["<b'eng+sales'.mailingset.lists.example.com>"] /\
    msg_get_all "List-Post" msg' = ["<mailto:b'eng+sales'@lists.example.com>"].
Proof.
  set (factory := {| mf_config := Sample.conf; mf_address := "eng+sales";
                     mf_subject_tag := "eng+sales"; mf_recipient_set := 0%nat |}).
  destruct (munge_header_list_headers Sample.externals (create factory) msg
              "lists.example.com") as (msg' & Hrun & Hid & Hpost).
  - vm_compute; reflexivity.
  - intros e. apply sample_raises_only_ValueError.
  - exists factory, (add_resolved "eng+sales" Sample.world0), msg'.
    split; [exact sample_accepts_eng_sales |]. split; [reflexivity |].
    split; [exact Hrun |].
    rewrite Hid, Hpost. split; vm_compute; reflexivity.
Qed.

(** ** Subject tagging *)

Lemma prefix_app (tag rest : str) : String.prefix tag (tag ++ rest) = true.
Proof.
  induction tag as [| c tag IH]; simpl.
  - now destruct rest.
  - destruct (ascii_dec c c); [exact IH | congruence].
Qed.

Lemma put_list_headers_keeps name id post msg :
  Py.lower name <> "list-id" -> Py.lower name <> "list-post" ->
  msg_get_all name (put_list_headers id post msg) = msg_get_all name msg.
Proof.
  intros Hid Hpost. unfold put_list_headers.
  rewrite get_all_setitem, get_all_delitem_other by exact Hpost.
  rewrite get_all_setitem, get_all_delitem_other by exact Hid.
  change (Py.lower "List-Post") with "list-post".
  change (Py.lower "List-Id") with "list-id".
  destruct (String.eqb_spec "list-post" (Py.lower name)); [congruence |].
  destruct (String.eqb_spec "list-id" (Py.lower name)); [congruence |].
  now rewrite !app_nil_r.
Qed.

Lemma put_precedence_keeps name msg :
  Py.lower name <> "precedence" ->
  msg_get_all name (put_precedence msg) = msg_get_all name msg.
Proof.
  intros Hp. unfold put_precedence.
  destruct (negb (msg_contains "precedence" msg)); [| reflexivity].
  rewrite get_all_setitem. change (Py.lower "Precedence") with "precedence".
  destruct (String.eqb_spec "precedence" (Py.lower name)); [congruence |].
  now rewrite app_nil_r.
Qed.

Lemma put_precedence_contains msg :
  msg_contains "precedence" (put_precedence msg) = true.
Proof.
  unfold put_precedence.
  destruct (msg_contains "precedence" msg) eqn:Hc; cbn [negb]; [exact Hc |].
  rewrite contains_get_all, get_all_setitem.
  change (String.eqb (Py.lower "Precedence") (Py.lower "precedence")) with true.
  now destruct (msg_get_all "precedence" msg).
Qed.

Lemma filter_all_true {A} (f : A -> bool) (l : list A) :
  (forall x, In x l -> f x = true) -> List.filter f l = l.
Proof.
  induction l as [| x l IH]; intros H; cbn; [reflexivity |].
  rewrite (H x) by now left. f_equal. apply IH. intros y Hy. apply H. now right.
Qed.

(** Putting the same list headers on a second time changes nothing. *)
Lemma put_list_headers_twice id post msg :
  put_list_headers id post (put_list_headers id post msg)
  = put_list_headers id post msg.
Proof.
  destruct msg as [hs body].
  unfold put_list_headers, msg_setitem, msg_delitem. cbn [headers payload].
  f_equal.
  set (nid := fun kv : str * str => negb (name_is "list-id" kv)).
  set (npost := fun kv : str * str => negb (name_is "list-post" kv)).
  assert (Hid_post : npost ("List-Id", id) = true) by reflexivity.
  assert (Hpost_id : nid ("List-Post", post) = true) by reflexivity.
  assert (Hid_id : nid ("List-Id", id) = false) by reflexivity.
  assert (Hpost_post : npost ("List-Post", post) = false) by reflexivity.
  clearbody nid npost.
  rewrite !List.filter_app. cbn [List.filter].
  rewrite Hid_post, Hpost_id. cbn [List.filter].
  rewrite Hid_id, Hpost_post. cbn [List.filter]. rewrite !app_nil_r.
  set (kept := List.filter npost (List.filter nid hs)).
  assert (Hnid : List.filter nid kept = kept).
  { apply filter_all_true. intros x Hx. unfold kept in Hx.
    apply List.filter_In in Hx as [Hx _]. now apply List.filter_In in Hx as [_ Hx]. }
  assert (Hnpost : List.filter npost kept = kept).
  { apply filter_all_true. intros x Hx. unfold kept in Hx.
    now apply List.filter_In in Hx as [_ Hx]. }
  rewrite Hnid, Hnpost. reflexivity.
Qed.

Lemma munge_header_with_tagging codec (E : Externals) (self : SetMessage)
    (msg : Message) (domain : str) :
  self.(config) !! ("incoming", "domain") = Some domain ->
  _munge_header (with_tagging codec E) self msg =
    Return (put_list_headers (list_id_of self domain) (list_post_of self domain)
              (put_precedence (fst (SubjectPrefix_process codec (tag_of self) msg)))).
Proof.
  intros Hdom.
  apply (munge_header_returns (with_tagging codec E) self msg domain Hdom).
  intros e. apply (tagging_raises_only_ValueError codec E).
Qed.

Lemma subject_after_rewrite id post msg :
  msg_get_all "subject" (put_list_headers id post (put_precedence msg))
  = msg_get_all "subject" msg.
Proof.
  rewrite put_list_headers_keeps, put_precedence_keeps
    by (vm_compute; discriminate).
  reflexivity.
Qed.

Lemma getitem_after_rewrite id post msg :
  msg_getitem "subject" (put_list_headers id post (put_precedence msg))
  = msg_getitem "subject" msg.
Proof. unfold msg_getitem. now rewrite subject_after_rewrite. Qed.

Lemma subject_after_tagging codec tag msg :
  let subject := default "" (msg_getitem "subject" msg) in
  msg_get_all "subject" (fst (SubjectPrefix_process codec tag msg)) =
    if String.prefix tag subject then msg_get_all "subject" msg
    else match codec (tag ++ subject) with
         | Some _ => [tag ++ subject]
         | None => msg_get_all "subject" msg
         end.
Proof.
  intros subject. unfold SubjectPrefix_process. fold subject.
  destruct (String.prefix tag subject); [reflexivity |].
  destruct (codec (tag ++ subject)); [| reflexivity].
  cbn [fst]. rewrite get_all_setitem, get_all_delitem_same by reflexivity.
  reflexivity.
Qed.

(** Tagging a message that tagging has left changes nothing more. *)
Lemma tagging_twice codec tag msg :
  forall msg', msg_getitem "subject" msg'
               = msg_getitem "subject" (fst (SubjectPrefix_process codec tag msg)) ->
  fst (SubjectPrefix_process codec tag msg') = msg'.
Proof.
  intros msg' Hsame.
  assert (Hget : msg_getitem "subject" (fst (SubjectPrefix_process codec tag msg)) =
                 let subject := default "" (msg_getitem "subject" msg) in
                 if String.prefix tag subject then msg_getitem "subject" msg
                 else match codec (tag ++ subject) with
                      | Some _ => Some (tag ++ subject)
                      | None => msg_getitem "subject" msg
                      end).
  { unfold msg_getitem at 1. rewrite subject_after_tagging. cbn zeta.
    destruct (String.prefix tag _); [reflexivity |].
    now destruct (codec _). }
  rewrite Hget in Hsame. cbn zeta in Hsame.
  unfold SubjectPrefix_process at 1.
  destruct (String.prefix tag (default "" (msg_getitem "subject" msg))) eqn:Hp.
  - rewrite Hsame, Hp. reflexivity.
  - destruct (codec (tag ++ default "" (msg_getitem "subject" msg))) eqn:Hc.
    + rewrite Hsame. cbn [from_option id]. now rewrite prefix_app.
    + rewrite Hsame, Hp, Hc. reflexivity.
Qed.

Lemma put_precedence_noop msg :
  msg_contains "precedence" msg = true -> put_precedence msg = msg.
Proof. intros H. unfold put_precedence. now rewrite H. Qed.

Lemma rewrite_contains_precedence id post msg :
  msg_contains "precedence" (put_list_headers id post (put_precedence msg)) = true.
Proof.
  rewrite contains_get_all, put_list_headers_keeps by (vm_compute; discriminate).
  rewrite <- contains_get_all. apply put_precedence_contains.
Qed.

(** C6. With tagging as the spec words it, [_munge_header] leaves the
    Subject headers as they are when the Subject already starts with
    "[tag] ", and otherwise (the new value encoding) leaves the single
    Subject "[tag] " followed by the old one; in particular a Subject
    "[tag] original" stays "[tag] original". Running the rewrite again on
    its own result gives that result back: the tag is never there twice. *)
Theorem subject_tagging_is_idempotent
    (codec : str -> option bytes) (E : Externals) (self : SetMessage)
    (msg : Message) (domain : str) :
  self.(config) !! ("incoming", "domain") = Some domain ->
  let E' := with_tagging codec E in
  let tag := "[" ++ self.(subject_tag) ++ "] " in
  let subject := default "" (msg_getitem "subject" msg) in
  exists msg',
    _munge_header E' self msg = Return msg' /\
    msg_get_all "subject" msg' =
      (if String.prefix tag subject then msg_get_all "subject" msg
       else match codec (tag ++ subject) with
            | Some _ => [tag ++ subject]
            | None => msg_get_all "subject" msg
            end) /\
    (forall original,
       msg_getitem "subject" msg = Some (tag ++ original) ->
       msg_getitem "subject" msg' = Some (tag ++ original)) /\
    _munge_header E' self msg' = Return msg'.
Proof.
  intros Hdom E' tag subject. subst E'.
  rewrite (munge_header_with_tagging codec E self msg domain Hdom).
  eexists. split; [reflexivity |].
  assert (Hsubj : msg_get_all "subject"
                    (put_list_headers (list_id_of self domain) (list_post_of self domain)
                       (put_precedence (fst (SubjectPrefix_process codec (tag_of self) msg))))
                  = if String.prefix tag subject then msg_get_all "subject" msg
                    else match codec (tag ++ subject) with
                         | Some _ => [tag ++ subject]
                         | None => msg_get_all "subject" msg
                         end).
  { rewrite subject_after_rewrite. apply subject_after_tagging. }
  split; [exact Hsubj | split].
  - intros original Horig. unfold msg_getitem at 1. rewrite Hsubj.
    unfold subject. rewrite Horig. cbn [from_option id].
    rewrite prefix_app. exact Horig.
  - rewrite (munge_header_with_tagging codec E self _ domain Hdom). f_equal.
    rewrite (tagging_twice codec (tag_of self) msg) by apply getitem_after_rewrite.
    rewrite put_precedence_noop by apply rewrite_contains_precedence.
    apply put_list_headers_twice.
Qed.

Lemma subject_tagging_example :
  exists msg',
    _munge_header Sample.externals
      (SetMessage_init Sample.conf (Py.PyStr "tag") "tag" 0)
      {| headers := [("Subject", "[tag] original")]; payload := "" |}
    = Return msg' /\
    msg_get_all "subject" msg' = ["[tag] original"] /\
    _munge_header Sample.externals
      (SetMessage_init Sample.conf (Py.PyStr "tag") "tag" 0) msg' = Return msg'.
Proof.
  destruct (subject_tagging_is_idempotent Sample.ascii_codec Sample.externals
              (SetMessage_init Sample.conf (Py.PyStr "tag") "tag" 0)
              {| headers := [("Subject", "[tag] original")]; payload := "" |}
              "lists.example.com" eq_refl)
    as (msg' & Hrun & Hsubj & _ & Htwice).
  exists msg'. split; [exact Hrun | split; [exact Hsubj | exact Htwice]].
Defined.

(** ** Dispatch *)

Lemma munge_header_ignores_parser (E : Externals) (self : SetMessage) p msg :
  _munge_header E (set_msg_parser p self) msg = _munge_header E self msg.
Proof. reflexivity. Qed.







Lemma sample_message_domain :
  config Sample.message !! ("incoming", "domain") = Some "lists.example.com".
Proof. vm_compute; reflexivity. Qed.
















(** ** Connection loss *)

Lemma lineReceived_open (self : SetMessage) (w : World) (text line : str) :
  self.(msg_parser) = Some text ->
  lineReceived (Py.PyStr line) (self, w) =
    (Return tt, (set_msg_parser (Some ((text ++ line) ++ newline)) self, w)).
Proof.
  intros Hopen. unfold lineReceived, feed.
  unfold bind at 1. unfold bind at 1, gets at 1. cbn [fst]. rewrite Hopen.
  unfold on_self at 1, modify at 1. cbn [fst snd].
  unfold bind at 1, gets at 1. cbn [fst msg_parser set_msg_parser].
  reflexivity.
Qed.

Lemma lineReceived_bytes (self : SetMessage) (w : World) (text : str) (line : bytes) :
  self.(msg_parser) = Some text ->
  lineReceived (Py.PyBytes line) (self, w) = (Raise TypeError, (self, w)).
Proof.
  intros Hopen. unfold lineReceived, feed.
  unfold bind at 1. unfold bind at 1, gets at 1. cbn [fst]. rewrite Hopen.
  reflexivity.
Qed.


Lemma set_msg_parser_same (self : SetMessage) (text : str) :
  self.(msg_parser) = Some text -> set_msg_parser (Some text) self = self.
Proof. destruct self; cbn. now intros ->. Qed.

(** Lines handed to an open message stay in its buffer or are refused:
    the world is not touched and the message stays open. *)
Lemma lines_are_buffered (E : Externals) (lines : list Py.PyVal) :
  forall (self : SetMessage) (w : World) (text : str),
    self.(msg_parser) = Some text ->
    exists text',
      run_calls E (map CallLine lines) (self, w)
      = (set_msg_parser (Some text') self, w).
Proof.
  induction lines as [| line lines IH]; intros self w text Hopen.
  - exists text. cbn. now rewrite set_msg_parser_same.
  - cbn [map run_calls fold_left run_call]. destruct line as [line | line].
    + rewrite (lineReceived_open self w text line Hopen). cbn [snd].
      destruct (IH (set_msg_parser (Some ((text ++ line) ++ newline)) self) w _ eq_refl)
        as (text' & Hrun).
      exists text'. unfold run_calls in Hrun. rewrite Hrun. reflexivity.
    + rewrite (lineReceived_bytes self w text line Hopen). cbn [snd].
      exact (IH self w text Hopen).
Qed.

(** Once the parser is dropped no call sends anything or reopens it. *)
Lemma dropped_never_sends (E : Externals) (calls : list Call) :
  forall (self : SetMessage) (w : World),
    self.(msg_parser) = None ->
    w_sent (snd (run_calls E calls (self, w))) = w_sent w /\
    msg_parser (fst (run_calls E calls (self, w))) = None.
Proof.
  induction calls as [| c calls IH]; intros self w Hnone.
  - cbn. auto.
  - cbn [run_calls fold_left].
    assert (Hstep : exists self' w',
               run_call E c (self, w) = (self', w') /\
               msg_parser self' = None /\ w_sent w' = w_sent w).
    { destruct c as [line | |]; cbn [run_call].
      - exists self, w. unfold lineReceived, feed, bind, gets. cbn [fst].
        rewrite Hnone. cbn. auto.
      - exists self, w. unfold eomReceived, bind, gets. cbn [fst].
        rewrite Hnone. cbn. auto.
      - eexists _, _. unfold connectionLost, bind, gets, on_world, on_self, modify.
        cbn. auto. }
    destruct Hstep as (self' & w' & Hrun & Hnone' & Hsent).
    rewrite Hrun. destruct (IH self' w' Hnone') as [IHsent IHnone].
    unfold run_calls in IHsent, IHnone. rewrite IHsent, IHnone. auto.
Qed.

(** C2. A message object that has been handed any number of lines, as
    text or as bytes, and is still open: [connectionLost] returns, drops the parser with what it
    buffered, logs one error naming the address, and leaves the list of
    [sendmail] calls as it was before the first line; whatever is called on
    the object afterwards, [sendmail] is still not called. *)
Theorem connectionLost_discards_and_never_sends
    (E : Externals) (conf : Config) (addr : Py.PyVal) (tag : str)
    (recp : loc) (w : World) (lines : list Py.PyVal) (later : list Call) :
  let opened := run_calls E (map CallLine lines)
                  (SetMessage_init conf addr tag recp, w) in
  let lost := connectionLost opened in
  is_Some (msg_parser (fst opened)) /\
  snd opened = w /\
  fst lost = Return tt /\
  msg_parser (fst (snd lost)) = None /\
  w_log (snd (snd lost)) =
    (w_log w ++ [LogErr (Text ("Connection lost " ++ Py.format_s addr))])%list /\
  w_sent (snd (snd lost)) = w_sent w /\
  w_heap (snd (snd lost)) = w_heap w /\
  w_sent (snd (run_calls E later (snd lost))) = w_sent w.
Proof.
  intros opened lost. subst lost opened.
  destruct (lines_are_buffered E lines
              (SetMessage_init conf addr tag recp) w "" eq_refl)
    as (text & Hrun).
  rewrite Hrun.
  unfold connectionLost, bind, gets, on_world, on_self, modify.
  cbn [fst snd set_msg_parser SetMessage_init msg_parser address
       w_log w_sent w_heap add_log].
  repeat (split; [first [reflexivity | now eexists] |]).
  match goal with
  | |- w_sent (snd (run_calls E later (?self, ?w'))) = _ =>
      apply (dropped_never_sends E later self w' eq_refl)
  end.
Qed.

(** ** The recipient set is shared, not copied *)







(** ** The pipeline on the sample deployment *)

Example sample_session_sends_once :
  map (fun c => (sc_host c, sc_port c, sc_from c, sc_msg c))
    (w_sent (snd (sample_session Sample.conf)))
  = [ ("mail.example.com", 25%Z, "bounce@lists.example.com",
       "Subject: [eng+sales] hi" ++ newline
       ++ "Precedence: list" ++ newline
       ++ "List-Id: <b'eng+sales'.mailingset.lists.example.com>" ++ newline
       ++ "List-Post: <mailto:b'eng+sales'@lists.example.com>" ++ newline
       ++ newline ++ "body" ++ newline) ].
Proof. vm_compute; reflexivity. Qed.

Example sample_session_recipients :
  map sc_to_now (w_sent (snd (sample_session Sample.conf)))
  = [ {[ "a@x.com"; "b@x.com" ]} ∪ {[ "archive@x.com" ]} ] /\
  map sc_to_now (w_sent (snd (sample_session Sample.conf_no_archive)))
  = [ {[ "a@x.com"; "b@x.com" ]} ].
Proof. split; vm_compute; reflexivity. Qed.

(** * Further properties of the code *)

(** ** validateFrom: the order of entries, malformed entries, what is checked *)

(** X1. [validateFrom] stops at the first entry that contains the client
    address: when the entries before it are ranges that do not contain the
    address, the origin (an address of ASCII text, so that the log line can
    be written) is returned whatever follows, and the entries after it are
    not even parsed. *)
Theorem validateFrom_stops_at_first_match
    (E : Externals) (config : Config) (helo : smtp.Helo) (origin : smtp.Address)
    (w : World) (s text : str) (ip : netaddr.IPAddress) (before after : list str)
    (cidr : str) (net : netaddr.IPNetwork) :
  decode_if_bytes (snd helo) = Some s ->
  E.(netaddr_IPAddress) s = Some ip ->
  E.(smtp_Address_str) origin = Some text ->
  allow_list config = (before ++ cidr :: after)%list ->
  Forall (fun c => is_Some (E.(netaddr_IPNetwork) c) /\ in_range E ip c = false)
    before ->
  E.(netaddr_IPNetwork) cidr = Some net ->
  netaddr.contains net ip = true ->
  validateFrom E config helo origin w
  = (Return origin, add_log (LogMsg (ReceivingFrom helo origin)) w).
Proof.
  intros Hdec Hip Hstr Hlist Hbefore Hnet Hin.
  unfold validateFrom. fold (allow_list config). rewrite Hlist.
  rewrite (validateFrom_loop_skips E helo origin s ip before _ w Hdec Hip Hbefore).
  now rewrite validateFrom_loop_cons, Hdec, Hnet, Hip, Hin, Hstr.
Qed.

Lemma trailing_comma_entries :
  allow_list Cases.conf_trailing_comma = ["192.168.0.0/16"; "10.0.0.0/8"; ""].
Proof. vm_compute; reflexivity. Qed.

Lemma validateFrom_stops_at_first_match_example :
  fst (validateFrom Sample.externals Cases.conf_trailing_comma
         ("client", Py.PyBytes "10.1.2.3") Sample.origin Sample.world0)
  = Return Sample.origin.
Proof.
  refine (f_equal fst
            (validateFrom_stops_at_first_match Sample.externals
               Cases.conf_trailing_comma
               ("client", Py.PyBytes "10.1.2.3") Sample.origin Sample.world0
               "10.1.2.3" "alice@example.org"
               {| netaddr.addr_version := netaddr.IPv4; netaddr.addr_value := 167838211 |}
               ["192.168.0.0/16"] [""] "10.0.0.0/8"
               {| netaddr.net_version := netaddr.IPv4; netaddr.net_value := 167772160;
                  netaddr.net_prefixlen := 8 |}
               eq_refl _ eq_refl trailing_comma_entries _ _ _)).
  - vm_compute; reflexivity.
  - constructor; [| constructor].
    split; [eexists |]; vm_compute; reflexivity.
  - vm_compute; reflexivity.
  - vm_compute; reflexivity.
Defined.

(** X2. An entry that netaddr does not read as a network, met before any
    entry contains the client address, ends [validateFrom] with
    AddrFormatError: the sender is neither accepted nor answered with
    SMTPBadSender, and nothing is logged. An empty entry, as a trailing
    comma leaves one, is such an entry. *)
Theorem validateFrom_malformed_entry_raises
    (E : Externals) (config : Config) (helo : smtp.Helo) (origin : smtp.Address)
    (w : World) (s : str) (ip : netaddr.IPAddress) (before after : list str)
    (bad : str) :
  decode_if_bytes (snd helo) = Some s ->
  E.(netaddr_IPAddress) s = Some ip ->
  allow_list config = (before ++ bad :: after)%list ->
  Forall (fun c => is_Some (E.(netaddr_IPNetwork) c) /\ in_range E ip c = false)
    before ->
  E.(netaddr_IPNetwork) bad = None ->
  validateFrom E config helo origin w = (Raise AddrFormatError, w).
Proof.
  intros Hdec Hip Hlist Hbefore Hbad.
  unfold validateFrom. fold (allow_list config). rewrite Hlist.
  rewrite (validateFrom_loop_skips E helo origin s ip before _ w Hdec Hip Hbefore).
  now rewrite validateFrom_loop_cons, Hdec, Hbad.
Qed.

Lemma validateFrom_trailing_comma_example :
  validateFrom Sample.externals Cases.conf_trailing_comma
    ("client", Py.PyBytes "172.16.0.1") Sample.origin Sample.world0
  = (Raise AddrFormatError, Sample.world0).
Proof.
  refine (validateFrom_malformed_entry_raises Sample.externals
            Cases.conf_trailing_comma
            ("client", Py.PyBytes "172.16.0.1") Sample.origin Sample.world0
            "172.16.0.1"
            {| netaddr.addr_version := netaddr.IPv4; netaddr.addr_value := 2886729729 |}
            ["192.168.0.0/16"; "10.0.0.0/8"] [] "" eq_refl _ trailing_comma_entries _ _).
  - vm_compute; reflexivity.
  - repeat constructor; try (eexists; vm_compute; reflexivity); vm_compute; reflexivity.
  - vm_compute; reflexivity.
Defined.

Lemma validateFrom_loop_same_verdict E host1 host2 (ip : Py.PyVal)
    origin1 origin2 text1 text2 cidrs :
  E.(smtp_Address_str) origin1 = Some text1 ->
  E.(smtp_Address_str) origin2 = Some text2 ->
  forall w1 w2,
    (fst (validateFrom_loop E (host1, ip) origin1 cidrs w1) = Return origin1 /\
     fst (validateFrom_loop E (host2, ip) origin2 cidrs w2) = Return origin2) \/
    (exists e, fst (validateFrom_loop E (host1, ip) origin1 cidrs w1) = Raise e /\
               fst (validateFrom_loop E (host2, ip) origin2 cidrs w2) = Raise e).
Proof.
  intros Hstr1 Hstr2.
  induction cidrs as [| cidr rest IH]; intros w1 w2.
  - right. exists (bad_sender E ip).
    rewrite !validateFrom_loop_nil, Hstr1, Hstr2. split; reflexivity.
  - rewrite !validateFrom_loop_cons, Hstr1, Hstr2. cbn [snd].
    destruct (decode_if_bytes ip) as [s |];
      [| right; exists UnicodeDecodeError; split; reflexivity].
    destruct (netaddr_IPNetwork E cidr) as [net |];
      [| right; exists AddrFormatError; split; reflexivity].
    destruct (netaddr_IPAddress E s) as [a |];
      [| right; exists AddrFormatError; split; reflexivity].
    destruct (netaddr.contains net a); [left; split; reflexivity | apply IH].
Qed.

(** X3. Of an origin [validateFrom] uses only its text, for the log line:
    with the same configuration and the same client address, two calls
    that differ in the HELO host name, the origin (each an address of ASCII
    text) and the state of the world either both return the origin they
    were given or both raise the same exception. *)
Theorem validateFrom_checks_only_the_address
    (E : Externals) (config : Config) (host1 host2 : bytes) (ip : Py.PyVal)
    (origin1 origin2 : smtp.Address) (text1 text2 : str) (w1 w2 : World) :
  E.(smtp_Address_str) origin1 = Some text1 ->
  E.(smtp_Address_str) origin2 = Some text2 ->
  (fst (validateFrom E config (host1, ip) origin1 w1) = Return origin1 /\
   fst (validateFrom E config (host2, ip) origin2 w2) = Return origin2) \/
  (exists e, fst (validateFrom E config (host1, ip) origin1 w1) = Raise e /\
             fst (validateFrom E config (host2, ip) origin2 w2) = Raise e).
Proof.
  intros Hstr1 Hstr2. unfold validateFrom.
  now apply (validateFrom_loop_same_verdict E host1 host2 ip origin1 origin2
               text1 text2).
Qed.

Lemma validateFrom_checks_only_the_address_example :
  (fst (validateFrom Sample.externals Sample.conf ("client", Py.PyBytes "10.1.2.3")
          Sample.origin Sample.world0) = Return Sample.origin /\
   fst (validateFrom Sample.externals Sample.conf ("other", Py.PyBytes "10.1.2.3")
          Cases.origin_bob Sample.world0) = Return Cases.origin_bob) \/
  (exists e,
     fst (validateFrom Sample.externals Sample.conf ("client", Py.PyBytes "10.1.2.3")
            Sample.origin Sample.world0) = Raise e /\
     fst (validateFrom Sample.externals Sample.conf ("other", Py.PyBytes "10.1.2.3")
            Cases.origin_bob Sample.world0) = Raise e).
Proof.
  exact (validateFrom_checks_only_the_address Sample.externals Sample.conf
           "client" "other" (Py.PyBytes "10.1.2.3") Sample.origin Cases.origin_bob
           "alice@example.org" "bob@example.net" Sample.world0 Sample.world0
           eq_refl eq_refl).
Defined.

Lemma validateFrom_loop_frame E helo origin cidrs w :
  let r := validateFrom_loop E helo origin cidrs w in
  w_resolved (snd r) = w_resolved w /\
  w_sent (snd r) = w_sent w /\
  w_heap (snd r) = w_heap w /\
  (fst r = Return origin /\
   w_log (snd r) = (w_log w ++ [LogMsg (ReceivingFrom helo origin)])%list \/
   fst r = Raise (bad_sender E (snd helo)) /\
   w_log (snd r) = (w_log w ++ [LogMsg (RejectingFrom helo origin)])%list \/
   (fst r = Raise UnicodeDecodeError \/ fst r = Raise AddrFormatError) /\
   snd r = w).
Proof.
  induction cidrs as [| cidr rest IH]; cbn zeta in *.
  - rewrite validateFrom_loop_nil.
    destruct (smtp_Address_str E origin); cbn; auto 10.
  - rewrite !validateFrom_loop_cons.
    destruct (decode_if_bytes (snd helo)) as [s |]; [| cbn; auto 10].
    destruct (netaddr_IPNetwork E cidr) as [net |]; [| cbn; auto 10].
    destruct (netaddr_IPAddress E s) as [a |]; [| cbn; auto 10].
    destruct (netaddr.contains net a); [| exact IH].
    destruct (smtp_Address_str E origin); cbn; auto 10.
Qed.

(** X4. [validateFrom] does nothing but decide and log: it never consults
    the resolver, never calls [sendmail] and never touches a recipient
    set. It ends in one of three ways: it logs the sender as received and
    returns the origin; it logs the sender as rejected and ends with what
    [raise smtp.SMTPBadSender(helo[1])] raises; or it raises
    UnicodeDecodeError or AddrFormatError and leaves the world, the log
    included, as it was. *)
Theorem validateFrom_only_logs
    (E : Externals) (config : Config) (helo : smtp.Helo) (origin : smtp.Address)
    (w : World) :
  let r := validateFrom E config helo origin w in
  w_resolved (snd r) = w_resolved w /\
  w_sent (snd r) = w_sent w /\
  w_heap (snd r) = w_heap w /\
  (fst r = Return origin /\
   w_log (snd r) = (w_log w ++ [LogMsg (ReceivingFrom helo origin)])%list \/
   fst r = Raise (bad_sender E (snd helo)) /\
   w_log (snd r) = (w_log w ++ [LogMsg (RejectingFrom helo origin)])%list \/
   (fst r = Raise UnicodeDecodeError \/ fst r = Raise AddrFormatError) /\
   snd r = w).
Proof. unfold validateFrom. apply validateFrom_loop_frame. Qed.

Lemma validateFrom_loop_unprintable E helo origin cidrs w :
  E.(smtp_Address_str) origin = None ->
  exists e, validateFrom_loop E helo origin cidrs w = (Raise e, w).
Proof.
  intros Hstr. induction cidrs as [| cidr rest IH].
  - rewrite validateFrom_loop_nil, Hstr. now eexists.
  - rewrite validateFrom_loop_cons, Hstr.
    destruct (decode_if_bytes (snd helo)) as [s |]; [| now eexists].
    destruct (netaddr_IPNetwork E cidr) as [net |]; [| now eexists].
    destruct (netaddr_IPAddress E s) as [a |]; [| now eexists].
    destruct (netaddr.contains net a); [now eexists | exact IH].
Qed.

(** X21. An origin whose text is not ASCII is never accepted, whatever the
    client address and the allow-list: ['%s' % origin] in the log line
    raises before anything is logged or returned, so [validateFrom] ends
    with an exception and leaves the world as it was. *)
Theorem validateFrom_origin_outside_ascii_raises
    (E : Externals) (config : Config) (helo : smtp.Helo) (origin : smtp.Address)
    (w : World) :
  E.(smtp_Address_str) origin = None ->
  exists e, validateFrom E config helo origin w = (Raise e, w).
Proof. intros Hstr. unfold validateFrom. now apply validateFrom_loop_unprintable. Qed.

Lemma validateFrom_origin_outside_ascii_example :
  exists e,
    validateFrom Sample.externals Sample.conf ("client", Py.PyBytes "10.1.2.3")
      Cases.origin_accented Sample.world0
    = (Raise e, Sample.world0).
Proof.
  refine (validateFrom_origin_outside_ascii_raises Sample.externals Sample.conf
            ("client", Py.PyBytes "10.1.2.3") Cases.origin_accented Sample.world0 _).
  vm_compute; reflexivity.
Defined.

(** ** validateTo: acceptance and the errors it does not turn into a rejection *)

(** The paths through [validateTo]. *)
Lemma validateTo_paths (E : Externals) (config : Config) (user : smtp.User) (w : World) :
  validateTo E config user w =
    let domain := user.(smtp.dest).(smtp.domain) in
    let local := user.(smtp.dest).(smtp.local) in
    match config !! ("incoming", "domain") with
    | None => (Raise (config_missing config "incoming" "domain"), w)
    | Some own =>
        if negb (String.eqb domain (Py.encode own)) then
          (Raise (SMTPBadRcpt user
                    ("Incorrect domain: " ++ Py.format_s (Py.PyBytes domain))),
           add_log (LogMsg (Text ("Rejecting domain "
                                  ++ Py.format_s (Py.PyBytes domain)))) w)
        else
          match Py.decode local with
          | None => (Raise UnicodeDecodeError, w)
          | Some address =>
              let w' := set_heap (snd (E.(parse) address w.(w_heap)))
                          (add_resolved address w) in
              match fst (E.(parse) address w.(w_heap)) with
              | Return (subject_tag, recipient_set) =>
                  (Return {| mf_config := config; mf_address := local;
                             mf_subject_tag := subject_tag;
                             mf_recipient_set := recipient_set |}, w')
              | Raise (SyntaxError error) =>
                  (Raise (SMTPBadRcpt user error),
                   add_log (LogMsg (Text ("Rejecting address "
                                          ++ Py.format_s (Py.PyBytes local)
                                          ++ ": " ++ error))) w')
              | Raise e => (Raise e, w')
              end
          end
    end.
Proof.
  cbn zeta. unfold validateTo, config_get.
  destruct (config !! ("incoming", "domain")) as [own |]; [| reflexivity].
  unfold bind at 1, lift_result at 1.
  destruct (negb (String.eqb (smtp.domain (smtp.dest user)) (Py.encode own)));
    [reflexivity |].
  destruct (Py.decode (smtp.local (smtp.dest user))) as [address |]; [| reflexivity].
  unfold bind at 1, call_parse at 1. cbn [w_heap add_resolved].
  destruct (parse E address (w_heap w)) as [[[tag l] | e] h]; cbn [fst snd];
    [reflexivity |].
  destruct e; reflexivity.
Qed.

(** X5. A recipient at the configured domain whose local part decodes and
    resolves is accepted: [validateTo] returns the factory without logging
    or sending, the resolver has been called once with the decoded local
    part, and calling the factory gives an open message object with an
    empty buffer, bound to the local part (as bytes), the resolver's
    subject tag and the very set object the resolver returned. *)
Theorem validateTo_accepts_resolved_recipient
    (E : Externals) (config : Config) (user : smtp.User) (w : World)
    (own address tag : str) (l : loc) (h : Heap) :
  config !! ("incoming", "domain") = Some own ->
  user.(smtp.dest).(smtp.domain) = Py.encode own ->
  Py.decode user.(smtp.dest).(smtp.local) = Some address ->
  E.(parse) address w.(w_heap) = (Return (tag, l), h) ->
  exists factory,
    validateTo E config user w
    = (Return factory, set_heap h (add_resolved address w)) /\
    create factory
    = SetMessage_init config (Py.PyBytes user.(smtp.dest).(smtp.local)) tag l /\
    msg_parser (create factory) = Some "" /\
    w_log (snd (validateTo E config user w)) = w_log w /\
    w_sent (snd (validateTo E config user w)) = w_sent w /\
    w_resolved (snd (validateTo E config user w)) = (w_resolved w ++ [address])%list.
Proof.
  intros Hown Hdom Hdec Hparse.
  rewrite validateTo_paths. cbn zeta.
  rewrite Hown, Hdom, String.eqb_refl. cbn [negb]. rewrite Hdec, Hparse.
  cbn [fst snd]. eexists. split; [reflexivity |].
  repeat split.
Qed.

Lemma sample_resolves_eng_sales :
  parse Sample.externals "eng+sales" (w_heap Sample.world0)
  = (Return ("eng+sales", 0%nat), Sample.heap0).
Proof. vm_compute; reflexivity. Qed.

Lemma validateTo_accepts_example :
  exists factory,
    fst (validateTo Sample.externals Sample.conf
           (Sample.rcpt "eng+sales" "lists.example.com") Sample.world0)
    = Return factory /\
    create factory
    = SetMessage_init Sample.conf (Py.PyBytes "eng+sales") "eng+sales" 0.
Proof.
  destruct (validateTo_accepts_resolved_recipient Sample.externals Sample.conf
              (Sample.rcpt "eng+sales" "lists.example.com") Sample.world0
              "lists.example.com" "eng+sales" "eng+sales" 0 Sample.heap0
              sample_message_domain eq_refl eq_refl sample_resolves_eng_sales)
    as (factory & Hrun & Hcreate & _).
  exists factory. split; [exact (f_equal fst Hrun) | exact Hcreate].
Defined.

(** X6. Without [incoming.domain] in the configuration [validateTo] ends
    with the error of [config.get] for every recipient, before anything is
    compared, logged or resolved: NoOptionError when the configuration has
    a section [incoming], NoSectionError when it has none. No recipient is
    accepted and none is answered with SMTPBadRcpt. *)
Theorem validateTo_without_domain_option
    (E : Externals) (config : Config) (user : smtp.User) (w : World) :
  config !! ("incoming", "domain") = None ->
  validateTo E config user w =
    (Raise (if config_has_section config "incoming"
            then NoOptionError "incoming" "domain"
            else NoSectionError "incoming"), w).
Proof. intros Hnone. rewrite validateTo_paths. cbn zeta. now rewrite Hnone. Qed.

Lemma conf_no_domain_lookup :
  Cases.conf_no_domain !! ("incoming", "domain") = None.
Proof. vm_compute; reflexivity. Qed.

Lemma validateTo_without_domain_example :
  validateTo Sample.externals Cases.conf_no_domain
    (Sample.rcpt "eng+sales" "lists.example.com") Sample.world0
  = (Raise (NoOptionError "incoming" "domain"), Sample.world0).
Proof.
  exact (validateTo_without_domain_option Sample.externals Cases.conf_no_domain
           (Sample.rcpt "eng+sales" "lists.example.com") Sample.world0
           conf_no_domain_lookup).
Defined.

Example validateTo_without_section_example :
  validateTo Sample.externals Cases.conf_no_incoming
    (Sample.rcpt "eng+sales" "lists.example.com") Sample.world0
  = (Raise (NoSectionError "incoming"), Sample.world0).
Proof. vm_compute; reflexivity. Qed.

(** X7. A local part that is not valid UTF-8, at the configured domain:
    [local.decode()] raises UnicodeDecodeError, which [validateTo] does not
    catch. The recipient gets no SMTPBadRcpt, the resolver is not called
    and nothing is logged. *)
Theorem validateTo_undecodable_local_part
    (E : Externals) (config : Config) (user : smtp.User) (w : World) (own : str) :
  config !! ("incoming", "domain") = Some own ->
  user.(smtp.dest).(smtp.domain) = Py.encode own ->
  Py.decode user.(smtp.dest).(smtp.local) = None ->
  validateTo E config user w = (Raise UnicodeDecodeError, w).
Proof.
  intros Hown Hdom Hdec. rewrite validateTo_paths. cbn zeta.
  rewrite Hown, Hdom, String.eqb_refl. cbn [negb]. now rewrite Hdec.
Qed.

Lemma validateTo_undecodable_example :
  validateTo Sample.externals Sample.conf Cases.rcpt_not_utf8 Sample.world0
  = (Raise UnicodeDecodeError, Sample.world0).
Proof.
  exact (validateTo_undecodable_local_part Sample.externals Sample.conf
           Cases.rcpt_not_utf8 Sample.world0 "lists.example.com"
           sample_message_domain eq_refl eq_refl).
Defined.

(** X8. Only SyntaxError is turned into a rejection. Any other exception
    of the resolver leaves [validateTo] as it is, with nothing logged: the
    client is not told that the recipient is bad. *)
Theorem validateTo_passes_on_other_resolver_errors
    (E : Externals) (config : Config) (user : smtp.User) (w : World)
    (own address : str) (e : PyExn) (h : Heap) :
  config !! ("incoming", "domain") = Some own ->
  user.(smtp.dest).(smtp.domain) = Py.encode own ->
  Py.decode user.(smtp.dest).(smtp.local) = Some address ->
  E.(parse) address w.(w_heap) = (Raise e, h) ->
  (forall text, e <> SyntaxError text) ->
  validateTo E config user w = (Raise e, set_heap h (add_resolved address w)) /\
  w_log (snd (validateTo E config user w)) = w_log w.
Proof.
  intros Hown Hdom Hdec Hparse Hother.
  assert (Hrun : validateTo E config user w
                 = (Raise e, set_heap h (add_resolved address w))).
  { rewrite validateTo_paths. cbn zeta.
    rewrite Hown, Hdom, String.eqb_refl. cbn [negb]. rewrite Hdec, Hparse.
    cbn [fst snd]. destruct e; try reflexivity. now destruct (Hother text). }
  rewrite Hrun. auto.
Qed.

Lemma validateTo_resolver_crash_example :
  fst (validateTo Cases.crashing Sample.conf
         (Sample.rcpt "eng+sales" "lists.example.com") Sample.world0)
  = Raise (OtherError "KeyError").
Proof.
  refine (f_equal fst
            (proj1 (validateTo_passes_on_other_resolver_errors Cases.crashing
                      Sample.conf (Sample.rcpt "eng+sales" "lists.example.com")
                      Sample.world0 "lists.example.com" "eng+sales"
                      (OtherError "KeyError") Sample.heap0
                      sample_message_domain eq_refl eq_refl eq_refl _))).
  intros text H. discriminate H.
Defined.

(** X9. On every path [validateTo] leaves the list of [sendmail] calls as
    it was, consults the resolver at most once (and then with the decoded
    local part), and logs at most one line, which it does only when it
    raises SMTPBadRcpt. *)
Theorem validateTo_never_sends
    (E : Externals) (config : Config) (user : smtp.User) (w : World) :
  let r := validateTo E config user w in
  w_sent (snd r) = w_sent w /\
  (w_resolved (snd r) = w_resolved w \/
   exists address,
     Py.decode user.(smtp.dest).(smtp.local) = Some address /\
     w_resolved (snd r) = (w_resolved w ++ [address])%list) /\
  (w_log (snd r) = w_log w \/
   exists entry resp,
     fst r = Raise (SMTPBadRcpt user resp) /\
     w_log (snd r) = (w_log w ++ [entry])%list).
Proof.
  cbn zeta. rewrite validateTo_paths. cbn zeta.
  destruct (config !! ("incoming", "domain")) as [own |]; [| cbn; auto].
  destruct (negb (String.eqb (smtp.domain (smtp.dest user)) (Py.encode own))).
  { cbn. split; [reflexivity |]. split; [now left |]. right. eauto. }
  destruct (Py.decode (smtp.local (smtp.dest user))) as [address |] eqn:Hdec;
    [| cbn; auto].
  destruct (parse E address (w_heap w)) as [[[tag l] | e] h]; cbn [fst snd].
  - cbn. split; [reflexivity |]. split; [right; eauto | now left].
  - destruct e; cbn; (split; [reflexivity |]); (split; [right; eauto |]);
      first [now left | right; eauto].
Qed.

(** ** SetMessage: what is buffered, and what the rewrite keeps *)

Lemma string_app_assoc (a b c : string) : (a ++ b) ++ c = a ++ (b ++ c).
Proof.
  induction a as [| x a IH]; [reflexivity |].
  change (String x ((a ++ b) ++ c) = String x (a ++ (b ++ c))). now rewrite IH.
Qed.

Lemma string_app_nil_r (a : string) : a ++ "" = a.
Proof.
  induction a as [| x a IH]; [reflexivity |].
  change (String x (a ++ "") = String x a). now rewrite IH.
Qed.

Lemma fed_text_cons (line : Py.PyVal) (lines : list Py.PyVal) :
  fed_text (line :: lines) = fed_piece line ++ fed_text lines.
Proof.
  unfold fed_text. cbn [map String.concat].
  destruct lines as [| l ls]; cbn [map]; [now rewrite string_app_nil_r | reflexivity].
Qed.

Lemma lines_extend_the_buffer (E : Externals) (lines : list Py.PyVal) :
  forall (self : SetMessage) (w : World) (text : str),
    self.(msg_parser) = Some text ->
    run_calls E (map CallLine lines) (self, w)
    = (set_msg_parser (Some (text ++ fed_text lines)) self, w).
Proof.
  induction lines as [| line lines IH]; intros self w text Hopen.
  - cbn. rewrite string_app_nil_r. now rewrite set_msg_parser_same.
  - cbn [map run_calls fold_left run_call]. rewrite fed_text_cons.
    destruct line as [line | line]; cbn [fed_piece].
    + rewrite (lineReceived_open self w text line Hopen). cbn [snd].
      pose proof (IH (set_msg_parser (Some ((text ++ line) ++ newline)) self) w _ eq_refl)
        as Hrun.
      unfold run_calls in Hrun. rewrite Hrun.
      rewrite !string_app_assoc. reflexivity.
    + rewrite (lineReceived_bytes self w text line Hopen). cbn [snd].
      exact (IH self w text Hopen).
Qed.

(** X10. Of the lines handed to a new message object those that are text
    are buffered in order, each followed by one newline; a line of bytes
    adds nothing to the buffer. Nothing else happens: after any list of
    [lineReceived] calls the message is still open and the world (log,
    resolver, [sendmail] calls, sets) is as before. *)
Theorem lineReceived_buffers_lines_in_order
    (E : Externals) (conf : Config) (addr : Py.PyVal) (tag : str) (recp : loc)
    (w : World) (lines : list Py.PyVal) :
  run_calls E (map CallLine lines) (SetMessage_init conf addr tag recp, w)
  = (set_msg_parser (Some (fed_text lines)) (SetMessage_init conf addr tag recp), w).
Proof.
  exact (lines_extend_the_buffer E lines (SetMessage_init conf addr tag recp) w ""
           eq_refl).
Qed.

(** X22. A line of bytes, which is how an SMTP server that reads bytes
    from its connection hands lines over, is refused: on an open message
    [lineReceived] raises the TypeError of the FeedParser, which takes
    text only, and buffers nothing, not even the newline. *)
Theorem lineReceived_refuses_bytes
    (self : SetMessage) (w : World) (text : str) (line : bytes) :
  self.(msg_parser) = Some text ->
  lineReceived (Py.PyBytes line) (self, w) = (Raise TypeError, (self, w)).
Proof. exact (lineReceived_bytes self w text line). Qed.

Lemma lineReceived_refuses_bytes_example :
  lineReceived (Py.PyBytes "Subject: hi")
    (SetMessage_init Sample.conf (Py.PyBytes "eng+sales") "eng+sales" 0, Sample.world0)
  = (Raise TypeError,
     (SetMessage_init Sample.conf (Py.PyBytes "eng+sales") "eng+sales" 0,
      Sample.world0)).
Proof.
  exact (lineReceived_refuses_bytes
           (SetMessage_init Sample.conf (Py.PyBytes "eng+sales") "eng+sales" 0)
           Sample.world0 "" "Subject: hi" eq_refl).
Defined.

Lemma filter_filter_andb {A} (f g : A -> bool) (l : list A) :
  List.filter g (List.filter f l) = List.filter (fun x => f x && g x) l.
Proof.
  induction l as [| x l IH]; cbn; [reflexivity |].
  destruct (f x); cbn; [destruct (g x); now rewrite IH | exact IH].
Qed.

(** X23. Whatever headers the message carries and however many rewrites
    came before, when [_munge_header] has run the message has exactly one
    List-Id header and exactly one List-Post header (names compared as
    [email.message.Message] does, without case), and their values are the
    ones of this last rewrite: ['<%s.mailingset.%s>'] and
    ['<mailto:%s@%s>'] filled with [self.address] as ['%s'] renders it (a
    bytes address by its repr) and with [incoming.domain]. *)
Theorem munge_header_leaves_one_list_id_and_post
    (E : Externals) (earlier : list SetMessage) (self : SetMessage)
    (msg : Message) (domain : str) :
  raises_only_ValueError E ->
  Forall (fun s => is_Some (s.(config) !! ("incoming", "domain"))) earlier ->
  self.(config) !! ("incoming", "domain") = Some domain ->
  exists msg',
    munge_each E (earlier ++ [self]) msg = Return msg' /\
    msg_get_all "List-Id" msg' = [list_id_of self domain] /\
    msg_get_all "List-Post" msg' = [list_post_of self domain].
Proof.
  intros Hcaught Hearlier Hdom. revert msg.
  induction Hearlier as [| s rest [d Hd] _ IH]; intros msg; cbn [app munge_each].
  - destruct (munge_header_list_headers E self msg domain Hdom) as (m & Hm & Hid & Hpost).
    { intros e. apply Hcaught. }
    rewrite Hm. eauto.
  - destruct (munge_header_list_headers E s msg d Hd) as (m & Hm & _).
    { intros e. apply Hcaught. }
    rewrite Hm. apply IH.
Qed.

Lemma munge_header_twice_example :
  exists msg',
    munge_each Sample.externals
      [ SetMessage_init Sample.conf (Py.PyBytes "eng") "eng" 0;
        SetMessage_init Sample.conf (Py.PyBytes "eng+sales") "eng+sales" 0 ]
      {| headers := [("List-Id", "<one>"); ("Subject", "hi"); ("LIST-ID", "<two>")];
         payload := "" |}
    = Return msg' /\
    msg_get_all "List-Id" msg' = ["<b'eng+sales'.mailingset.lists.example.com>"] /\
    msg_get_all "List-Post" msg' = ["<mailto:b'eng+sales'@lists.example.com>"].
Proof.
  refine (munge_header_leaves_one_list_id_and_post Sample.externals
            [ SetMessage_init Sample.conf (Py.PyBytes "eng") "eng" 0 ]
            (SetMessage_init Sample.conf (Py.PyBytes "eng+sales") "eng+sales" 0)
            _ "lists.example.com" sample_raises_only_ValueError _ _).
  - constructor; [eexists; vm_compute; reflexivity | constructor].
  - vm_compute; reflexivity.
Defined.

(** X11. What the rewrite does to the header list: the headers that
    [process] (and the Precedence step) left keep their order, those named
    List-Id or List-Post in any case are gone, and the new List-Id and
    List-Post are the last two headers, in this order. The payload is the
    one [process] left. *)
Theorem munge_header_appends_list_headers_last
    (E : Externals) (self : SetMessage) (msg : Message) (domain : str) :
  self.(config) !! ("incoming", "domain") = Some domain ->
  (forall e, snd (E.(process) (tag_of self) msg) = Some e -> is_ValueError e = true) ->
  let m0 := fst (E.(process) (tag_of self) msg) in
  exists msg',
    _munge_header E self msg = Return msg' /\
    headers msg' =
      (List.filter (fun kv => negb (name_is "list-id" kv) && negb (name_is "list-post" kv))
         (headers (put_precedence m0))
       ++ [ ("List-Id", list_id_of self domain);
            ("List-Post", list_post_of self domain) ])%list /\
    payload msg' = payload m0.
Proof.
  intros Hdom Hcaught m0.
  eexists. split; [exact (munge_header_returns E self msg domain Hdom Hcaught) |].
  fold m0. fold (put_precedence m0).
  split.
  - unfold msg_setitem, msg_delitem. cbn [headers].
    rewrite List.filter_app. cbn [List.filter].
    change (negb (name_is "list-post" ("List-Id", list_id_of self domain))) with true.
    cbn iota. rewrite filter_filter_andb, <- app_assoc. reflexivity.
  - cbn [payload msg_setitem msg_delitem]. unfold put_precedence.
    now destruct (negb (msg_contains "precedence" m0)).
Qed.

Lemma munge_header_shape_example :
  exists msg',
    _munge_header Sample.externals
      (SetMessage_init Sample.conf (Py.PyStr "eng") "eng" 0)
      {| headers := [("List-Post", "<mailto:old>"); ("Subject", "[eng] hi");
                     ("list-id", "<old>"); ("To", "eng@lists.example.com")];
         payload := "body" |}
    = Return msg' /\
    headers msg' = [ ("Subject", "[eng] hi"); ("To", "eng@lists.example.com");
                     ("Precedence", "list");
                     ("List-Id", "<eng.mailingset.lists.example.com>");
                     ("List-Post", "<mailto:eng@lists.example.com>") ].
Proof.
  destruct (munge_header_appends_list_headers_last Sample.externals
              (SetMessage_init Sample.conf (Py.PyStr "eng") "eng" 0)
              {| headers := [("List-Post", "<mailto:old>"); ("Subject", "[eng] hi");
                             ("list-id", "<old>"); ("To", "eng@lists.example.com")];
                 payload := "body" |}
              "lists.example.com" sample_message_domain
              (sample_raises_only_ValueError _ _))
    as (msg' & Hrun & Hheaders & _).
  exists msg'. split; [exact Hrun | exact Hheaders].
Defined.

(** X12. The rewrite never replaces a Precedence header: when the message
    that [process] left has one or more, those values are the Precedence
    values of the result, unchanged; only when it has none there is the
    single value "list". *)
Theorem munge_header_keeps_given_precedence
    (E : Externals) (self : SetMessage) (msg : Message) (domain : str) :
  self.(config) !! ("incoming", "domain") = Some domain ->
  (forall e, snd (E.(process) (tag_of self) msg) = Some e -> is_ValueError e = true) ->
  let m0 := fst (E.(process) (tag_of self) msg) in
  exists msg',
    _munge_header E self msg = Return msg' /\
    msg_get_all "precedence" msg' =
      if msg_contains "precedence" m0 then msg_get_all "precedence" m0 else ["list"].
Proof.
  intros Hdom Hcaught m0.
  eexists. split; [exact (munge_header_returns E self msg domain Hdom Hcaught) |].
  fold m0. fold (put_precedence m0).
  fold (put_list_headers (list_id_of self domain) (list_post_of self domain)
          (put_precedence m0)).
  rewrite put_list_headers_keeps by (vm_compute; discriminate).
  unfold put_precedence.
  destruct (msg_contains "precedence" m0) eqn:Hc; cbn [negb]; [reflexivity |].
  rewrite get_all_setitem. rewrite contains_get_all in Hc.
  destruct (msg_get_all "precedence" m0); [reflexivity | discriminate Hc].
Qed.

Lemma munge_header_precedence_example :
  exists msg',
    _munge_header Sample.externals
      (SetMessage_init Sample.conf (Py.PyStr "eng") "eng" 0)
      {| headers := [("PRECEDENCE", "bulk"); ("Subject", "hi")]; payload := "" |}
    = Return msg' /\
    msg_get_all "precedence" msg' = ["bulk"].
Proof.
  destruct (munge_header_keeps_given_precedence Sample.externals
              (SetMessage_init Sample.conf (Py.PyStr "eng") "eng" 0)
              {| headers := [("PRECEDENCE", "bulk"); ("Subject", "hi")]; payload := "" |}
              "lists.example.com" sample_message_domain
              (sample_raises_only_ValueError _ _))
    as (msg' & Hrun & Hprec).
  exists msg'. split; [exact Hrun | exact Hprec].
Defined.

(** X13. When the rewrite fails: [_munge_header] raises [e] exactly when
    [process] raised [e] and [e] is no ValueError (nor of a subclass of
    it), or [process] raised nothing but such errors, [incoming.domain] is
    not configured and [e] is the error of [config.get] for it:
    NoOptionError, or NoSectionError when there is no section [incoming]. *)
Theorem munge_header_raises_iff
    (E : Externals) (self : SetMessage) (msg : Message) (e : PyExn) :
  _munge_header E self msg = Raise e <->
  (snd (E.(process) (tag_of self) msg) = Some e /\ is_ValueError e = false) \/
  ((forall e', snd (E.(process) (tag_of self) msg) = Some e' -> is_ValueError e' = true) /\
   self.(config) !! ("incoming", "domain") = None /\
   e = (if config_has_section self.(config) "incoming"
        then NoOptionError "incoming" "domain"
        else NoSectionError "incoming")).
Proof.
  fold (config_missing self.(config) "incoming" "domain").
  unfold _munge_header. fold (tag_of self).
  destruct (process E (tag_of self) msg) as [m raised_]. cbn [snd].
  unfold config_get.
  destruct raised_ as [e0 |]; [destruct (is_ValueError e0) eqn:Hv |];
    destruct (config self !! ("incoming", "domain")) as [domain |].
  - split; [discriminate |].
    intros [[[= <-] Hnot] | (_ & Hnone & _)]; congruence.
  - split.
    + intros [= <-]. right. split; [| auto]. intros e' [= <-]. exact Hv.
    + intros [[[= <-] Hnot] | (_ & _ & ->)]; [congruence | reflexivity].
  - split.
    + intros [= <-]. left. auto.
    + intros [[[= <-] _] | (Hall & _)]; [reflexivity |].
      specialize (Hall e0 eq_refl). congruence.
  - split.
    + intros [= <-]. left. auto.
    + intros [[[= <-] _] | (Hall & _)]; [reflexivity |].
      specialize (Hall e0 eq_refl). congruence.
  - split; [discriminate |].
    intros [[Hsome _] | (_ & Hnone & _)]; discriminate.
  - split.
    + intros [= <-]. right. split; [| auto]. intros e' Hsome. discriminate Hsome.
    + intros [[Hsome _] | (_ & _ & ->)]; [discriminate Hsome | reflexivity].
Qed.

(** ** eomReceived: once only, and what a failure leaves behind *)









(** X16. When the rewrite raises (see X13), [eomReceived] raises the same
    exception with the message already taken from the parser: the parser
    is dropped, and nothing is logged, sent or changed in any set. *)
Theorem eomReceived_rewrite_failure_drops_message
    (E : Externals) (self : SetMessage) (w : World) (text : str) (e : PyExn) :
  self.(msg_parser) = Some text ->
  _munge_header E self (E.(FeedParser_close) text) = Raise e ->
  eomReceived E (self, w) = (Raise e, (set_msg_parser None self, w)).
Proof.
  intros Hopen Hmunge.
  unfold eomReceived.
  unfold bind at 1, gets at 1. cbn [fst]. rewrite Hopen.
  unfold bind at 1, on_self at 1, modify at 1. cbn [fst snd].
  unfold bind at 1, gets at 1. cbn [fst].
  unfold bind at 1, lift_result at 1.
  rewrite munge_header_ignores_parser, Hmunge. reflexivity.
Qed.

Lemma no_domain_open :
  msg_parser (Cases.message_with Cases.conf_no_domain)
  = Some ("Subject: hi" ++ newline ++ newline ++ "body" ++ newline).
Proof. vm_compute; reflexivity. Qed.

Lemma no_domain_rewrite_fails :
  _munge_header Sample.externals (Cases.message_with Cases.conf_no_domain)
    (FeedParser_close Sample.externals
       ("Subject: hi" ++ newline ++ newline ++ "body" ++ newline))
  = Raise (NoOptionError "incoming" "domain").
Proof. vm_compute; reflexivity. Qed.

Lemma eomReceived_rewrite_failure_example :
  eomReceived Sample.externals (Cases.message_with Cases.conf_no_domain, Sample.world0)
  = (Raise (NoOptionError "incoming" "domain"),
     (set_msg_parser None (Cases.message_with Cases.conf_no_domain), Sample.world0)).
Proof.
  exact (eomReceived_rewrite_failure_drops_message Sample.externals
           (Cases.message_with Cases.conf_no_domain) Sample.world0 _
           (NoOptionError "incoming" "domain") no_domain_open no_domain_rewrite_fails).
Defined.

(** ** Sets shared between message objects, and the whole delivery *)
















(** ** eomReceived: the handle it returns and what it logs *)




